(** * Lifestyle & Comorbidity dashboard: the data-transformation core

    A shallow embedding of [streamlit_app.py]: the loader ([load_data]), the
    row filter ([apply_filters]), the prevalence table ([prevalence_table])
    and the three module-level views of the main script (headline tier
    prevalence [group_prev], correlation triples [corr_df]).

    The script is written against pandas.  The pandas operations it calls are
    modelled in [Module Pd] with the semantics of the pandas 2.x line
    (object columns, [astype(str)] turning a missing value into the text
    [nan], [stack] dropping missing cells, [groupby] on a categorical key
    keeping unobserved categories).  Numbers are exact rationals: a numeric
    cell is [option Q], [None] being the missing value NaN; order comparisons
    of finite floats agree with those of the rationals they denote, while
    rounding error of float arithmetic is not modelled. *)

From Stdlib Require Import List String Ascii Bool ZArith QArith Qround Lia Lra.
From Stdlib Require Import Permutation Sorted Reals Qreals.
Import ListNotations.
Local Open Scope string_scope.

(** ** Exceptions *)

Inductive exn : Type :=
| ValueError (msg : string).

Inductive result (A : Type) : Type :=
| Ok (a : A)
| Raise (e : exn).
Arguments Ok {A} a.
Arguments Raise {A} e.

Definition bind {A B : Type} (c : result A) (k : A -> result B) : result B :=
  match c with
  | Ok a => k a
  | Raise e => Raise e
  end.

Notation "x <- c ;; k" := (bind c (fun x => k))
  (at level 61, c at next level, right associativity).

(** ** Tables *)

(** A float: a rational, or NaN. *)
Definition float : Type := option Q.

Definition of_int (z : Z) : float := Some (inject_Z z).

(** A record of the table.  Numeric columns hold floats (or NaN), text
    columns hold strings (or NaN); both are looked up by column name. *)
Record row : Type := mkRow {
  num : string -> float;
  obj : string -> option string
}.

Record DataFrame : Type := mkDF {
  columns : list string;
  rows : list row
}.

Definition set_num_cell (c : string) (v : float) (r : row) : row :=
  {| num := fun k => if String.eqb k c then v else num r k;
     obj := obj r |}.

Definition set_obj_cell (c : string) (v : option string) (r : row) : row :=
  {| num := num r;
     obj := fun k => if String.eqb k c then v else obj r k |}.

Fixpoint zip_with {A B C : Type} (f : A -> B -> C) (l : list A) (m : list B)
  : list C :=
  match l, m with
  | a :: l', b :: m' => f a b :: zip_with f l' m'
  | _, _ => []
  end.

Module Pd.

(** [df[c]] for a numeric and for a text column. *)
Definition col_num (df : DataFrame) (c : string) : list float :=
  map (fun r => num r c) (rows df).

Definition col_obj (df : DataFrame) (c : string) : list (option string) :=
  map (fun r => obj r c) (rows df).

Definition add_column (c : string) (cols : list string) : list string :=
  if existsb (String.eqb c) cols then cols else cols ++ [c].

(** [df[c] = values]: the column is replaced, or appended when new. *)
Definition set_num (c : string) (vals : list float) (df : DataFrame)
  : DataFrame :=
  {| columns := add_column c (columns df);
     rows := zip_with (fun r v => set_num_cell c v r) (rows df) vals |}.

Definition set_obj (c : string) (vals : list (option string))
  (df : DataFrame) : DataFrame :=
  {| columns := add_column c (columns df);
     rows := zip_with (fun r v => set_obj_cell c v r) (rows df) vals |}.

(** [df.drop(columns=[c])]. *)
Definition drop (c : string) (df : DataFrame) : DataFrame :=
  {| columns := filter (fun k => negb (String.eqb k c)) (columns df);
     rows := map (fun r => set_obj_cell c None (set_num_cell c None r))
               (rows df) |}.

(** [str.upper] on ASCII text. *)
Definition upper_char (c : ascii) : ascii :=
  if (Ascii.leb "a" c && Ascii.leb c "z")%bool
  then ascii_of_N (N_of_ascii c - 32) else c.

Definition lower_char (c : ascii) : ascii :=
  if (Ascii.leb "A" c && Ascii.leb c "Z")%bool
  then ascii_of_N (N_of_ascii c + 32) else c.

Fixpoint upper (s : string) : string :=
  match s with
  | EmptyString => EmptyString
  | String c s' => String (upper_char c) (upper s')
  end.

(** [Series.astype(str)] on an object column: NaN becomes the text nan. *)
Definition astype_str (x : option string) : option string :=
  match x with
  | Some s => Some s
  | None => Some "nan"
  end.

(** [Series.str.upper()]: a missing cell stays missing. *)
Definition str_upper (x : option string) : option string :=
  option_map upper x.

(** [Series.eq(s)] and [Series == s]: a missing cell compares unequal. *)
Definition eq_str (x : option string) (s : string) : bool :=
  match x with
  | Some t => String.eqb t s
  | None => false
  end.

(** [DataFrame.sum(axis=1)] over boolean columns of [n] rows. *)
Definition sum_axis1 (n : nat) (cols : list (list bool)) : list Z :=
  fold_left (fun acc col => zip_with (fun a b => (a + Z.b2z b)%Z) acc col)
    cols (repeat 0%Z n).

(** [Series > k]: false on NaN. *)
Definition gt (x : float) (k : Q) : bool :=
  match x with
  | Some q => negb (Qle_bool q k)
  | None => false
  end.

(** [np.where(cond, a, b)]. *)
Definition np_where {A : Type} (cond : list bool) (a b : A) : list A :=
  map (fun c : bool => if c then a else b) cond.

(** [Series.between(lo, hi)], both ends inclusive; NaN on either side
    of a comparison makes it false. *)
Definition le (x y : float) : bool :=
  match x, y with
  | Some a, Some b => Qle_bool a b
  | _, _ => false
  end.

Definition between (x lo hi : float) : bool := le lo x && le x hi.

(** [Series.isin(values)] against a list of strings. *)
Definition isin (x : option string) (values : list string) : bool :=
  match x with
  | Some s => existsb (String.eqb s) values
  | None => false
  end.

(** [Series.dropna()]. *)
Fixpoint dropna {A : Type} (l : list (option A)) : list A :=
  match l with
  | [] => []
  | Some a :: l' => a :: dropna l'
  | None :: l' => dropna l'
  end.

(** [Series.unique()]: first occurrences, in order of appearance. *)
Fixpoint unique_from (seen l : list string) : list string :=
  match l with
  | [] => []
  | s :: l' =>
      if existsb (String.eqb s) seen then unique_from seen l'
      else s :: unique_from (s :: seen) l'
  end.

Definition unique (l : list string) : list string := unique_from [] l.

(** [Series.min()] and [Series.max()]: NaN is skipped, and is the result
    when nothing is left. *)
Definition qmin (a b : Q) : Q := if Qle_bool a b then a else b.
Definition qmax (a b : Q) : Q := if Qle_bool a b then b else a.

Definition reduce (f : Q -> Q -> Q) (l : list float) : float :=
  match dropna l with
  | [] => None
  | a :: l' => Some (fold_left f l' a)
  end.

Definition min (l : list float) : float := reduce qmin l.
Definition max (l : list float) : float := reduce qmax l.

(** [m1 & m2] on boolean masks and [df[mask]]. *)
Definition and_mask (m1 m2 : list bool) : list bool := zip_with andb m1 m2.

Fixpoint select {A : Type} (l : list A) (mask : list bool) : list A :=
  match l, mask with
  | a :: l', b :: mask' => if b then a :: select l' mask' else select l' mask'
  | _, _ => []
  end.

Definition getitem_mask (df : DataFrame) (mask : list bool) : DataFrame :=
  {| columns := columns df; rows := select (rows df) mask |}.

(** [Series.mean()] of a boolean series: NaN when the series is empty. *)
Definition count_true (l : list bool) : Z :=
  fold_right (fun b acc => (Z.b2z b + acc)%Z) 0%Z l.

Definition mean_bool (l : list bool) : float :=
  match l with
  | [] => None
  | _ => Some (inject_Z (count_true l) / inject_Z (Z.of_nat (List.length l)))
  end.

Definition mul (x : float) (k : Q) : float := option_map (fun q => q * k) x.

(** *** Sorting

    [sort_values] orders by [nargsort], which hands the values that are
    not NaN to [ndarray.argsort(kind)].  The script leaves [kind] at its
    default, quicksort, which pandas and NumPy document as not stable:
    the kernel is a parameter, and [argsort_contract] is what every
    kind promises. *)
Definition argsort_contract (kernel : list Q -> list nat) : Prop :=
  forall l : list Q,
    Permutation (kernel l) (seq 0 (List.length l)) /\
    StronglySorted Qle (map (fun i => nth i l 0) (kernel l)).

Fixpoint positions {A : Type} (keep : option A -> bool) (i : nat)
  (l : list (option A)) : list nat :=
  match l with
  | [] => []
  | x :: l' =>
      if keep x then i :: positions keep (S i) l' else positions keep (S i) l'
  end.

Definition notna {A : Type} (x : option A) : bool :=
  match x with Some _ => true | None => false end.

Definition isna {A : Type} (x : option A) : bool := negb (notna x).

Definition nargsort (kernel : list Q -> list nat) (items : list float)
  (ascending : bool) : list nat :=
  let non_nans := dropna items in
  let non_nan_idx := positions notna 0 items in
  let nan_idx := positions isna 0 items in
  let non_nans := if ascending then non_nans else rev non_nans in
  let non_nan_idx := if ascending then non_nan_idx else rev non_nan_idx in
  let indexer := map (fun i => nth i non_nan_idx 0%nat) (kernel non_nans) in
  let indexer := if ascending then indexer else rev indexer in
  indexer ++ nan_idx.

(** [take]: the rows at the given positions. *)
Definition take {A : Type} (l : list A) (indexer : list nat) : list A :=
  flat_map (fun i => match nth_error l i with
                     | Some a => [a]
                     | None => []
                     end) indexer.

(** [sort_values(by, ascending)] on a frame whose sort column is [by]. *)
Definition sort_values {A : Type} (kernel : list Q -> list nat)
  (by_ : A -> float) (ascending : bool) (l : list A) : list A :=
  take l (nargsort kernel (map by_ l) ascending).

(** Two kernels.  Both are insertion sorts on (value, position) pairs;
    the first places a value before the equal values already placed
    (stable), the second after them. *)
Fixpoint insert_by (before : Q -> Q -> bool) (x : Q * nat)
  (l : list (Q * nat)) : list (Q * nat) :=
  match l with
  | [] => [x]
  | y :: l' =>
      if before (fst x) (fst y) then x :: l else y :: insert_by before x l'
  end.

Definition argsort_by (before : Q -> Q -> bool) (l : list Q) : list nat :=
  map snd
    (fold_right (insert_by before) [] (combine l (seq 0 (List.length l)))).

Definition argsort_stable : list Q -> list nat := argsort_by Qle_bool.

Definition argsort_ties_reversed : list Q -> list nat :=
  argsort_by (fun a b => negb (Qle_bool b a)).

(** *** Quantiles and binning *)

Fixpoint insert_Q (x : Q) (l : list Q) : list Q :=
  match l with
  | [] => [x]
  | y :: l' => if Qle_bool x y then x :: l else y :: insert_Q x l'
  end.

Definition sort_Q (l : list Q) : list Q := fold_right insert_Q [] l.

(** [Series.quantile(p)], linear interpolation between the two order
    statistics around position [(n - 1) * p]; NaN is skipped. *)
Definition interpolate (s : list Q) (d : Q) (p : Q) : Q :=
  let n := Z.of_nat (List.length s) in
  let h := inject_Z (n - 1) * p in
  let lo := Qfloor h in
  let a := nth (Z.to_nat lo) s d in
  let b := nth (Z.to_nat (Z.min (lo + 1) (n - 1))) s d in
  a + (b - a) * (h - inject_Z lo).

Definition quantile (vals : list float) (p : Q) : float :=
  match sort_Q (dropna vals) with
  | [] => None
  | (a0 :: _) as s => Some (interpolate s a0 p)
  end.

Fixpoint all_some {A : Type} (l : list (option A)) : option (list A) :=
  match l with
  | [] => Some []
  | Some a :: l' => option_map (cons a) (all_some l')
  | None :: _ => None
  end.

Fixpoint nondecreasing (l : list Q) : bool :=
  match l with
  | a :: (b :: _) as l' => Qle_bool a b && nondecreasing l'
  | _ => true
  end.

Fixpoint unique_Q_from (seen l : list Q) : list Q :=
  match l with
  | [] => []
  | x :: l' =>
      if existsb (Qeq_bool x) seen then unique_Q_from seen l'
      else x :: unique_Q_from (x :: seen) l'
  end.

Definition unique_Q (l : list Q) : list Q := unique_Q_from [] l.

(** [bins.searchsorted(v, side="left")] on sorted edges: how many edges
    lie strictly below [v]. *)
Definition searchsorted_left (bins : list Q) (v : Q) : nat :=
  List.length (filter (fun b => negb (Qle_bool v b)) bins).

(** The label of one value: right-closed bins, the lowest edge included;
    NaN, and anything outside the edges, gets no label. *)
Definition bin_label (bins : list Q) (labels : list string) (x : float)
  : option string :=
  match x with
  | None => None
  | Some v =>
      let ids := searchsorted_left bins v in
      let ids :=
        match bins with
        | b0 :: _ => if Qeq_bool v b0 then 1%nat else ids
        | [] => ids
        end in
      if (ids =? 0)%nat || (ids =? List.length bins)%nat then None
      else nth_error labels (ids - 1)
  end.

(** [pd.cut(x, bins, labels=labels, include_lowest=True,
    duplicates="drop")] with a list of edges and a list of labels. *)
Definition cut (x : list float) (bins : list float) (labels : list string)
  : result (list (option string)) :=
  match all_some bins with
  | None => Raise (ValueError "bins must increase monotonically.")
  | Some bs =>
      if negb (nondecreasing bs)
      then Raise (ValueError "bins must increase monotonically.")
      else
        let unique_bins := unique_Q bs in
        let bs :=
          if (List.length unique_bins <? List.length bs)%nat
             && negb (List.length bs =? 2)%nat
          then unique_bins else bs in
        if negb (List.length (unique labels) =? List.length labels)%nat
        then Raise (ValueError "labels must be unique if ordered=True; pass ordered=False for duplicate labels")
        else if negb (Z.of_nat (List.length labels)
                      =? Z.of_nat (List.length bs) - 1)%Z
        then Raise (ValueError "Bin labels must be one fewer than the number of bin edges")
        else Ok (map (bin_label bs labels) x)
  end.

(** [df.groupby(key, dropna=True)] on a categorical column: one group per
    category, in category order, also for a category no row carries
    ([observed] is left at False); rows without a category are in no
    group. *)
Definition groupby (df : DataFrame) (key : string)
  (categories : list string) : list (string * list row) :=
  map (fun c => (c, filter (fun r => eq_str (obj r key) c) (rows df)))
    categories.

(** [.apply(f).reset_index(name=...)]: [f] is called on every group. *)
Definition apply_groups {B : Type} (f : list row -> B)
  (groups : list (string * list row)) : list (string * B) :=
  map (fun g => (fst g, f (snd g))) groups.

(** *** Correlation *)

(** The rows where both columns are present. *)
Fixpoint complete_pairs (x y : list float) : list (Q * Q) :=
  match x, y with
  | Some a :: x', Some b :: y' => (a, b) :: complete_pairs x' y'
  | _ :: x', _ :: y' => complete_pairs x' y'
  | _, _ => []
  end.

Definition qsum (l : list Q) : Q := fold_right Qplus 0 l.

Definition qmean (l : list Q) : Q :=
  qsum l / inject_Z (Z.of_nat (List.length l)).

(** Sum of products of deviations from the means. *)
Definition sdev (u v : list Q) : Q :=
  qsum (zip_with (fun a b => (a - qmean u) * (b - qmean v)) u v).

(** Pearson's coefficient over pairwise-complete rows ([min_periods] is
    1); NaN when no row is left or a sum of squares is zero.  The
    coefficient is a real number: the square root leaves the rationals. *)
Definition pearson (x y : list float) : option R :=
  let ps := complete_pairs x y in
  let u := map fst ps in
  let v := map snd ps in
  if (List.length ps <? 1)%nat then None
  else if Qeq_bool (sdev u u * sdev v v) 0 then None
  else Some (Q2R (sdev u v) / sqrt (Q2R (sdev u u * sdev v v)))%R.

(** [df[cols].corr()]: entry (a, b) for every ordered pair of columns. *)
Definition corr (df : DataFrame) (cols : list string)
  : list (string * list (string * option R)) :=
  map (fun a =>
         (a, map (fun b => (b, pearson (col_num df a) (col_num df b))) cols))
    cols.

(** [.stack().reset_index()]: the matrix row by row as (row label, column
    label, value) records; [stack] drops the cells that are NaN. *)
Definition stack (m : list (string * list (string * option R)))
  : list (string * string * R) :=
  flat_map (fun ra =>
              flat_map (fun bv => match snd bv with
                                  | Some v => [(fst ra, fst bv, v)]
                                  | None => []
                                  end) (snd ra)) m.

End Pd.

(** ** Config *)

Definition OUTCOME_COLS : list string :=
  [ "Heart_Attack"; "Diabetes"; "Stroke"; "Celiac_Disease";
    "Arthritis"; "Liver_Disease"; "Asthma"; "COPD" ].

Definition LIFESTYLE_COLS : list string :=
  [ "Cigarettes_Per_Day"; "Sleep_Hours"; "Alcohol_Use_Frequency";
    "Physical_Activity_Equivalent_Min" ].

Definition METABOLIC_COLS : list string :=
  [ "BMI"; "Waist_Circumference"; "Total_Cholesterol"; "HDL_Cholesterol";
    "LDL_Cholesterol"; "Triglycerides"; "Serum_Glucose"; "Glycohemoglobin";
    "Platelet_Count"; "Hemoglobin"; "Hematocrit"; "Iron_Saturation";
    "Serum_Iron"; "Creatinine"; "Uric_Acid"; "WBC_Count";
    "Diastolic_BP_Average"; "Systolic_BP_Average" ].

Definition DEMOGRAPHIC_COLS : list string :=
  [ "Age"; "Gender"; "Ethnicity"; "Education_Level";
    "Income_to_Poverty_Ratio" ].

(** ** The loader *)

Fixpoint nice_label (name : string) : string :=
  match name with
  | EmptyString => EmptyString
  | String c s => String (if Ascii.eqb c "_" then " "%char else c) (nice_label s)
  end.

(** [load_data], from the frame [pd.read_csv] returned. *)
Definition load_data (csv : DataFrame) : DataFrame :=
  let df :=
    if existsb (String.eqb "Unnamed: 0") (columns csv)
    then Pd.drop "Unnamed: 0" csv else csv in
  let df :=
    fold_left
      (fun d col => Pd.set_obj col (map Pd.astype_str (Pd.col_obj d col)) d)
      OUTCOME_COLS df in
  let outcome_yes :=
    map (fun col =>
           map (fun x => Pd.eq_str (Pd.str_upper x) "YES") (Pd.col_obj df col))
      OUTCOME_COLS in
  let count := Pd.sum_axis1 (List.length (rows df)) outcome_yes in
  let df :=
    Pd.set_num "Comorbidity_Count" (map of_int count) df in
  let any :=
    Pd.np_where (map (fun x => Pd.gt x 0) (Pd.col_num df "Comorbidity_Count"))
      (Some "Yes") (Some "No") in
  Pd.set_obj "Any_Comorbidity" any df.


(** ** Python built-ins *)

(** [int(x)]: truncation toward zero; NaN raises. *)
Definition py_int (x : float) : result Z :=
  match x with
  | Some q => Ok (Z.quot (Qnum q) (Z.pos (Qden q)))
  | None => Raise (ValueError "cannot convert float NaN to integer")
  end.

(** Rounding to the nearest integer, halves to the even neighbour. *)
Definition round_half_even (x : Q) : Z :=
  let n := Qfloor x in
  match Qcompare (x - inject_Z n) (1 # 2) with
  | Lt => n
  | Gt => (n + 1)%Z
  | Eq => if Z.even n then n else (n + 1)%Z
  end.

(** [round(x, 1)]. *)
Definition py_round1 (x : float) : float :=
  option_map (fun q => inject_Z (round_half_even (q * 10)) / 10) x.

(** [sorted] on strings. *)
Fixpoint insert_str (s : string) (l : list string) : list string :=
  match l with
  | [] => [s]
  | t :: l' => if String.leb s t then s :: l else t :: insert_str s l'
  end.

Definition sorted (l : list string) : list string :=
  fold_right insert_str [] l.

(** ** The filter *)

(** What the sidebar widgets return. *)
Record FilterSelection : Type := mkSel {
  age_range : Z * Z;
  selected_genders : list string;
  selected_ethnicities : list string;
  selected_edu : list string;
  income_range : float * float;
  cig_range : Z * Z;
  sleep_range : Z * Z;
  alcohol_range : Z * Z;
  pa_range : Z * Z
}.

(** The [min_value]/[max_value] of an integer slider, also its default. *)
Definition int_bounds (df : DataFrame) (c : string) : result (Z * Z) :=
  lo <- py_int (Pd.min (Pd.col_num df c)) ;;
  hi <- py_int (Pd.max (Pd.col_num df c)) ;;
  Ok (lo, hi).

(** The options of a multiselect, also its default. *)
Definition options (df : DataFrame) (c : string) : list string :=
  sorted (Pd.unique (Pd.dropna (Pd.col_obj df c))).

(** The value every widget holds on initial load (its [value=] or
    [default=] argument), in the order the widgets are created. *)
Definition default_selection (df : DataFrame) : result FilterSelection :=
  age <- int_bounds df "Age" ;;
  let genders := options df "Gender" in
  let ethnicities := options df "Ethnicity" in
  let edu_levels := options df "Education_Level" in
  let inc_min := Pd.min (Pd.col_num df "Income_to_Poverty_Ratio") in
  let inc_max := Pd.max (Pd.col_num df "Income_to_Poverty_Ratio") in
  cig <- int_bounds df "Cigarettes_Per_Day" ;;
  sleep <- int_bounds df "Sleep_Hours" ;;
  alcohol <- int_bounds df "Alcohol_Use_Frequency" ;;
  pa <- int_bounds df "Physical_Activity_Equivalent_Min" ;;
  Ok {| age_range := age;
        selected_genders := genders;
        selected_ethnicities := ethnicities;
        selected_edu := edu_levels;
        income_range := (py_round1 inc_min, py_round1 inc_max);
        cig_range := cig;
        sleep_range := sleep;
        alcohol_range := alcohol;
        pa_range := pa |}.

(** The mask and the selection of rows (from "Build mask" on). *)
Definition build_mask (sel : FilterSelection) (df : DataFrame) : list bool :=
  let between_int c (rg : Z * Z) :=
    map (fun x => Pd.between x (of_int (fst rg)) (of_int (snd rg)))
      (Pd.col_num df c) in
  let mask :=
    Pd.and_mask
      (Pd.and_mask
         (Pd.and_mask
            (Pd.and_mask
               (Pd.and_mask
                  (between_int "Age" (age_range sel))
                  (map (fun x => Pd.between x (fst (income_range sel))
                                   (snd (income_range sel)))
                     (Pd.col_num df "Income_to_Poverty_Ratio")))
               (between_int "Cigarettes_Per_Day" (cig_range sel)))
            (between_int "Sleep_Hours" (sleep_range sel)))
         (between_int "Alcohol_Use_Frequency" (alcohol_range sel)))
      (between_int "Physical_Activity_Equivalent_Min" (pa_range sel)) in
  let isin_col c values := map (fun x => Pd.isin x values) (Pd.col_obj df c) in
  let mask :=
    match selected_genders sel with
    | [] => mask
    | _ => Pd.and_mask mask (isin_col "Gender" (selected_genders sel))
    end in
  let mask :=
    match selected_ethnicities sel with
    | [] => mask
    | _ => Pd.and_mask mask (isin_col "Ethnicity" (selected_ethnicities sel))
    end in
  let mask :=
    match selected_edu sel with
    | [] => mask
    | _ => Pd.and_mask mask (isin_col "Education_Level" (selected_edu sel))
    end in
  mask.

Definition filter_rows (sel : FilterSelection) (df : DataFrame) : DataFrame :=
  Pd.getitem_mask df (build_mask sel df).

(** [apply_filters].  [ui] is the analyst: it maps the widgets' initial
    values to the values the widgets return. *)
Definition apply_filters (ui : FilterSelection -> FilterSelection)
  (df : DataFrame) : result DataFrame :=
  defaults <- default_selection df ;;
  Ok (filter_rows (ui defaults) df).

(** Initial load: nothing has been touched. *)
Definition initial_load (defaults : FilterSelection) : FilterSelection :=
  defaults.


(** ** Prevalence of each outcome *)

Definition prevalence_of (df : DataFrame) (col : string) : float :=
  let s := map Pd.str_upper (Pd.col_obj df col) in
  let prev := Pd.mul (Pd.mean_bool (map (fun x => Pd.eq_str x "YES") s)) 100 in
  py_round1 prev.

(** The frame before sorting: one (Outcome, Prevalence (%)) row per column. *)
Definition prevalence_rows (df : DataFrame) : list (string * float) :=
  map (fun col => (nice_label col, prevalence_of df col)) OUTCOME_COLS.

Definition prevalence_table (kernel : list Q -> list nat) (df : DataFrame)
  : list (string * float) :=
  Pd.sort_values kernel snd false (prevalence_rows df).


(** ** Comorbidity prevalence by lifestyle level *)

Definition labels : list string := ["Low"; "Medium"; "High"].

(** [filtered_life]: the filtered table with its [Lifestyle_Group] column. *)
(** The four cut points [q]: the quantiles 0, 1/3, 2/3 and 1. *)
Definition tertile_cuts (filtered : DataFrame) (life_var : string)
  : list float :=
  map (Pd.quantile (Pd.col_num filtered life_var)) [0; 1 # 3; 2 # 3; 1].

Definition filtered_life (filtered : DataFrame) (life_var : string)
  : result DataFrame :=
  let q := tertile_cuts filtered life_var in
  groups <- Pd.cut (Pd.col_num filtered life_var) q labels ;;
  Ok (Pd.set_obj "Lifestyle_Group" groups filtered).

(** The groups the [groupby] forms, with their rows. *)
Definition lifestyle_groups (filtered : DataFrame) (life_var : string)
  : result (list (string * list row)) :=
  fl <- filtered_life filtered life_var ;;
  Ok (Pd.groupby fl "Lifestyle_Group" labels).

Definition any_comorbidity_rate (d : list row) : float :=
  Pd.mean_bool (map (fun r => Pd.eq_str (obj r "Any_Comorbidity") "Yes") d).

(** [group_prev]: (Lifestyle_Group, Prevalence) records. *)
Definition group_prev (filtered : DataFrame) (life_var : string)
  : result (list (string * float)) :=
  groups <- lifestyle_groups filtered life_var ;;
  Ok (Pd.apply_groups any_comorbidity_rate groups).

(** ** Correlation of the metabolic measures *)

(** [corr_df]: (Var1, Var2, Correlation) records. *)
Definition corr_df (filtered : DataFrame) : list (string * string * R) :=
  Pd.stack (Pd.corr filtered METABOLIC_COLS).


(** ** Vocabulary of the specification *)

(** Case-insensitive equality of two texts, character by character. *)
Fixpoint ci_eq (a b : string) : bool :=
  match a, b with
  | EmptyString, EmptyString => true
  | String x a', String y b' =>
      Ascii.eqb (Pd.lower_char x) (Pd.lower_char y) && ci_eq a' b'
  | _, _ => false
  end.

(** An outcome field that says Yes, in any letter case. *)
Definition is_yes (x : option string) : bool :=
  match x with
  | Some s => ci_eq s "Yes"
  | None => false
  end.

(** How many of the outcome fields in [cols] say Yes in record [r]. *)
Definition yes_among (cols : list string) (r : row) : Z :=
  Z.of_nat (List.length (filter (fun c => is_yes (obj r c)) cols)).

Definition yes_count (r : row) : Z := yes_among OUTCOME_COLS r.

(** How many records of the table say Yes in column [col]. *)
Definition yes_rows (df : DataFrame) (col : string) : Z :=
  Z.of_nat (List.length (filter (fun r => is_yes (obj r col)) (rows df))).

(** [load_data] read record by record. *)
Definition load_row (cols : list string) (r : row) : row :=
  let r :=
    if existsb (String.eqb "Unnamed: 0") cols
    then set_obj_cell "Unnamed: 0" None (set_num_cell "Unnamed: 0" None r)
    else r in
  let r :=
    fold_left (fun d col => set_obj_cell col (Pd.astype_str (obj d col)) d)
      OUTCOME_COLS r in
  let n :=
    fold_left
      (fun acc col => (acc + Z.b2z (Pd.eq_str (Pd.str_upper (obj r col)) "YES"))%Z)
      OUTCOME_COLS 0%Z in
  let r := set_num_cell "Comorbidity_Count" (of_int n) r in
  set_obj_cell "Any_Comorbidity"
    (if Pd.gt (num r "Comorbidity_Count") 0 then Some "Yes" else Some "No") r.


(** The six range-filtered columns and the three set-filtered ones. *)
Definition RANGE_COLS : list string :=
  [ "Age"; "Income_to_Poverty_Ratio"; "Cigarettes_Per_Day"; "Sleep_Hours";
    "Alcohol_Use_Frequency"; "Physical_Activity_Equivalent_Min" ].

Definition INT_SLIDER_COLS : list string :=
  [ "Age"; "Cigarettes_Per_Day"; "Sleep_Hours"; "Alcohol_Use_Frequency";
    "Physical_Activity_Equivalent_Min" ].

Definition CATEGORY_COLS : list string :=
  [ "Gender"; "Ethnicity"; "Education_Level" ].

(** [x] lies in the closed range from [lo] to [hi]. *)
Definition within (x lo hi : float) : Prop :=
  exists v l h, x = Some v /\ lo = Some l /\ hi = Some h /\ l <= v /\ v <= h.

Definition within_int (x : float) (rg : Z * Z) : Prop :=
  within x (of_int (fst rg)) (of_int (snd rg)).

(** [x] is one of the selected values, or nothing is selected. *)
Definition allowed (x : option string) (selected : list string) : Prop :=
  selected = [] \/ exists s, x = Some s /\ In s selected.

(** All nine constraints of a selection at once. *)
Definition satisfies (sel : FilterSelection) (r : row) : Prop :=
  within_int (num r "Age") (age_range sel) /\
  within (num r "Income_to_Poverty_Ratio")
    (fst (income_range sel)) (snd (income_range sel)) /\
  within_int (num r "Cigarettes_Per_Day") (cig_range sel) /\
  within_int (num r "Sleep_Hours") (sleep_range sel) /\
  within_int (num r "Alcohol_Use_Frequency") (alcohol_range sel) /\
  within_int (num r "Physical_Activity_Equivalent_Min") (pa_range sel) /\
  allowed (obj r "Gender") (selected_genders sel) /\
  allowed (obj r "Ethnicity") (selected_ethnicities sel) /\
  allowed (obj r "Education_Level") (selected_edu sel).

(** The mask of [build_mask] read record by record. *)
Definition between_int (x : float) (rg : Z * Z) : bool :=
  Pd.between x (of_int (fst rg)) (of_int (snd rg)).

Definition isin_if_any (x : option string) (selected : list string) : bool :=
  match selected with
  | [] => true
  | _ => Pd.isin x selected
  end.

Definition passes (sel : FilterSelection) (r : row) : bool :=
  between_int (num r "Age") (age_range sel)
  && Pd.between (num r "Income_to_Poverty_Ratio")
       (fst (income_range sel)) (snd (income_range sel))
  && between_int (num r "Cigarettes_Per_Day") (cig_range sel)
  && between_int (num r "Sleep_Hours") (sleep_range sel)
  && between_int (num r "Alcohol_Use_Frequency") (alcohol_range sel)
  && between_int (num r "Physical_Activity_Equivalent_Min") (pa_range sel)
  && isin_if_any (obj r "Gender") (selected_genders sel)
  && isin_if_any (obj r "Ethnicity") (selected_ethnicities sel)
  && isin_if_any (obj r "Education_Level") (selected_edu sel).

(** The value a prevalence is rounded to: one decimal, halves to even. *)
Definition round1 (q : Q) : Q := inject_Z (round_half_even (q * 10)) / 10.

(** ** Sample tables *)

Fixpoint lookup {A : Type} (l : list (string * A)) (k : string) : option A :=
  match l with
  | [] => None
  | (k', a) :: l' => if String.eqb k k' then Some a else lookup l' k
  end.

(** A record given by its cells; a column that is not listed holds the
    default ([None] for a missing value). *)
Definition record (dnum : float) (dobj : option string)
  (nums : list (string * float)) (objs : list (string * option string)) : row :=
  {| num := fun k => match lookup nums k with Some v => v | None => dnum end;
     obj := fun k => match lookup objs k with Some v => v | None => dobj end |}.

Definition table (rs : list row) : DataFrame :=
  {| columns := OUTCOME_COLS ++ LIFESTYLE_COLS ++ METABOLIC_COLS
                ++ DEMOGRAPHIC_COLS;
     rows := rs |}.

(** Two participants as read from the file: the first has no Heart_Attack
    entry and says yes to Diabetes, the second says Yes to Heart_Attack. *)
Definition csv_missing_outcome : DataFrame :=
  table
    [ record (Some 1) (Some "No") []
        [("Heart_Attack", None); ("Diabetes", Some "yes")];
      record (Some 1) (Some "No") [] [("Heart_Attack", Some "Yes")] ].

(** A participant with the given Age, Income_to_Poverty_Ratio and Gender;
    the other numeric cells hold 1, the other text cells No. *)
Definition participant (age income : float) (gender : option string) : row :=
  record (Some 1) (Some "No")
    [("Age", age); ("Income_to_Poverty_Ratio", income)]
    [("Gender", gender)].

(** Ages 40 and 41, and the selection that narrows Age to 40..40. *)
Definition two_ages : DataFrame :=
  table [ participant (Some 40) (Some 2) (Some "Male");
          participant (Some 41) (Some 2) (Some "Female") ].

Definition only_age_40 (defaults : FilterSelection) : FilterSelection :=
  {| age_range := (40, 40)%Z;
     selected_genders := [];
     selected_ethnicities := selected_ethnicities defaults;
     selected_edu := selected_edu defaults;
     income_range := income_range defaults;
     cig_range := cig_range defaults;
     sleep_range := sleep_range defaults;
     alcohol_range := alcohol_range defaults;
     pa_range := pa_range defaults |}.

Definition sel_age_40 : FilterSelection :=
  only_age_40
    {| age_range := (40, 41)%Z;
       selected_genders := ["Female"; "Male"];
       selected_ethnicities := ["No"];
       selected_edu := ["No"];
       income_range := (Some 2, Some 2);
       cig_range := (1, 1)%Z;
       sleep_range := (1, 1)%Z;
       alcohol_range := (1, 1)%Z;
       pa_range := (1, 1)%Z |}.

(** A table whose second participant has no Age, and one whose largest
    Income_to_Poverty_Ratio is 4.94. *)
Definition one_age_missing : DataFrame :=
  table [ participant (Some 40) (Some 2) (Some "Male");
          participant None (Some 2) (Some "Female") ].

Definition income_4_94 : DataFrame :=
  table [ participant (Some 40) (Some 1) (Some "Male");
          participant (Some 41) (Some (494 # 100)) (Some "Female") ].

(** A whole number, and a number with at most one decimal. *)
Definition whole (x : float) : Prop :=
  exists q z, x = Some q /\ q == inject_Z z.

Definition one_decimal (x : float) : Prop :=
  exists q z, x = Some q /\ q * 10 == inject_Z z.

(** The prevalence of the specification: 100 times the number of Yes
    records over the number of records, to one decimal. *)
Definition prevalence_value (df : DataFrame) (col : string) : Q :=
  round1 (100 * inject_Z (yes_rows df col)
          / inject_Z (Z.of_nat (List.length (rows df)))).

(** Four participants with Heart_Attack Yes, No, YES, no. *)
Definition four_heart_attacks : DataFrame :=
  table (map (fun a => record (Some 1) (Some "No") [] [("Heart_Attack", Some a)])
           ["Yes"; "No"; "YES"; "no"]).

(** Position of a label in the declaration order of the outcomes. *)
Fixpoint index_of (s : string) (l : list string) : nat :=
  match l with
  | [] => 0
  | t :: l' => if String.eqb s t then 0 else S (index_of s l')
  end.

Definition decl_index (label : string) : nat :=
  index_of label (map nice_label OUTCOME_COLS).

Definition same_value (x y : float) : Prop :=
  match x, y with
  | Some a, Some b => a == b
  | None, None => True
  | _, _ => False
  end.

(** Rows with equal prevalence appear in declaration order. *)
Definition stable_ties (l : list (string * float)) : Prop :=
  forall i j a b,
    (i < j)%nat ->
    nth_error l i = Some a -> nth_error l j = Some b ->
    same_value (snd a) (snd b) ->
    (decl_index (fst a) < decl_index (fst b))%nat.

(** Edges that are all present and strictly increasing. *)
Definition strictly_increasing (bins : list float) : Prop :=
  exists bs, Pd.all_some bins = Some bs /\ StronglySorted Qlt bs.

(** Two records that differ at most in their Lifestyle_Group cell. *)
Definition same_but_group (r r' : row) : Prop :=
  num r' = num r /\
  forall c, c <> "Lifestyle_Group" -> obj r' c = obj r c.

(** A participant with the given Sleep_Hours and Any_Comorbidity. *)
Definition sleeper (hours : float) (any : string) : row :=
  record (Some 1) (Some "No")
    [("Sleep_Hours", hours)] [("Any_Comorbidity", Some any)].

(** Nine participants who all sleep seven hours. *)
Definition nine_identical : DataFrame :=
  table (repeat (sleeper (Some 7) "Yes") 9).

(** Two participants sleeping 0 and 3 hours: cut points 0, 1, 2, 3. *)
Definition sleep_0_3 : DataFrame :=
  table [ sleeper (Some 0) "Yes"; sleeper (Some 3) "No" ].

(** Five participants sleeping 5, 3, 1, 4 and 2 hours. *)
Definition sleep_1_to_5 : DataFrame :=
  table [ sleeper (Some 5) "Yes"; sleeper (Some 3) "No";
          sleeper (Some 1) "No"; sleeper (Some 4) "No";
          sleeper (Some 2) "Yes" ].

(** The sum of squared deviations of a column over its present values:
    the variance times (n - 1). *)
Definition ssq (x : list float) : Q :=
  Pd.sdev (Pd.dropna x) (Pd.dropna x).

Definition nonzero_variance (x : list float) : Prop := ~ ssq x == 0.

(** Three participants with BMI 25; their other measures are 1, 2 and 4. *)
Definition constant_bmi : DataFrame :=
  table (map (fun v => record (Some v) (Some "No") [("BMI", Some 25)] [])
           [1; 2; 4]).
(** * Properties *)

(** ** Lists *)

Section ZipWith.
Context {A B C D : Type}.

Lemma zip_with_map_r (f : A -> B -> C) (g : A -> B) (l : list A) :
  zip_with f l (map g l) = map (fun a => f a (g a)) l.
Proof. induction l as [|a l IH]; simpl; [reflexivity | now rewrite IH]. Qed.

Lemma zip_with_map_map (f : B -> C -> D) (g : A -> B) (h : A -> C)
  (l : list A) :
  zip_with f (map g l) (map h l) = map (fun a => f (g a) (h a)) l.
Proof. induction l as [|a l IH]; simpl; [reflexivity | now rewrite IH]. Qed.
End ZipWith.

Lemma repeat_as_map {A B : Type} (b : B) (l : list A) :
  repeat b (List.length l) = map (fun _ => b) l.
Proof. induction l as [|a l IH]; simpl; [reflexivity | now rewrite IH]. Qed.

Lemma count_fold {A : Type} (p : A -> bool) (l : list A) (a0 : Z) :
  fold_left (fun acc c => (acc + Z.b2z (p c))%Z) l a0
  = (a0 + Z.of_nat (List.length (filter p l)))%Z.
Proof.
  revert a0; induction l as [|c l IH]; intros a0; simpl.
  - lia.
  - rewrite IH. destruct (p c); simpl List.length; simpl Z.b2z; lia.
Qed.

(** ** Text *)

Ltac all_chars c :=
  destruct c as [[] [] [] [] [] [] [] []]; vm_compute; reflexivity.

Lemma upper_is_Y (c : ascii) :
  Ascii.eqb (Pd.upper_char c) "Y" = Ascii.eqb (Pd.lower_char c) "y".
Proof. all_chars c. Qed.

Lemma upper_is_E (c : ascii) :
  Ascii.eqb (Pd.upper_char c) "E" = Ascii.eqb (Pd.lower_char c) "e".
Proof. all_chars c. Qed.

Lemma upper_is_S (c : ascii) :
  Ascii.eqb (Pd.upper_char c) "S" = Ascii.eqb (Pd.lower_char c) "s".
Proof. all_chars c. Qed.

(** The script's test, upper-casing and comparing with YES, is
    case-insensitive equality with Yes. *)
Lemma upper_YES_iff (s : string) :
  String.eqb (Pd.upper s) "YES" = ci_eq s "Yes".
Proof.
  destruct s as [|a [|b [|c [|d s]]]]; try reflexivity;
    cbn [Pd.upper ci_eq String.eqb];
    change (Pd.lower_char "Y") with "y"%char;
    change (Pd.lower_char "e") with "e"%char;
    change (Pd.lower_char "s") with "s"%char;
    rewrite ?upper_is_Y, ?upper_is_E, ?upper_is_S;
    repeat match goal with
           | |- context [Ascii.eqb ?x ?y] => destruct (Ascii.eqb x y)
           end; reflexivity.
Qed.

Lemma eq_upper_is_yes (x : option string) :
  Pd.eq_str (Pd.str_upper x) "YES" = is_yes x.
Proof. destruct x as [s|]; simpl; [apply upper_YES_iff | reflexivity]. Qed.

(** ** The loader, record by record *)

Lemma rows_astype_fold (cs : list string) (df : DataFrame) :
  rows (fold_left
          (fun d col => Pd.set_obj col (map Pd.astype_str (Pd.col_obj d col)) d)
          cs df)
  = map (fun r =>
           fold_left
             (fun d col => set_obj_cell col (Pd.astype_str (obj d col)) d) cs r)
      (rows df).
Proof.
  revert df; induction cs as [|c cs IH]; intros df; simpl.
  - now rewrite map_id.
  - rewrite IH. unfold Pd.set_obj, Pd.col_obj; simpl.
    rewrite (map_map (fun r => obj r c) Pd.astype_str).
    rewrite zip_with_map_r, map_map. reflexivity.
Qed.

Lemma sum_axis1_rows {A K : Type} (g : K -> A -> bool) (ks : list K)
  (l : list A) (h : A -> Z) :
  fold_left (fun acc col => zip_with (fun a b => (a + Z.b2z b)%Z) acc col)
    (map (fun k => map (g k) l) ks) (map h l)
  = map (fun x => fold_left (fun a k => (a + Z.b2z (g k x))%Z) ks (h x)) l.
Proof.
  revert h; induction ks as [|k ks IH]; intros h; simpl.
  - reflexivity.
  - rewrite zip_with_map_map. apply (IH (fun x => (h x + Z.b2z (g k x))%Z)).
Qed.

Lemma rows_count_any (df : DataFrame) :
  let outcome_yes :=
    map (fun col =>
           map (fun x => Pd.eq_str (Pd.str_upper x) "YES") (Pd.col_obj df col))
      OUTCOME_COLS in
  let count := Pd.sum_axis1 (List.length (rows df)) outcome_yes in
  let df' := Pd.set_num "Comorbidity_Count" (map of_int count) df in
  rows (Pd.set_obj "Any_Comorbidity"
          (Pd.np_where
             (map (fun x => Pd.gt x 0) (Pd.col_num df' "Comorbidity_Count"))
             (Some "Yes") (Some "No")) df')
  = map (fun r =>
           let n :=
             fold_left
               (fun acc col =>
                  (acc + Z.b2z (Pd.eq_str (Pd.str_upper (obj r col)) "YES"))%Z)
               OUTCOME_COLS 0%Z in
           let r := set_num_cell "Comorbidity_Count" (of_int n) r in
           set_obj_cell "Any_Comorbidity"
             (if Pd.gt (num r "Comorbidity_Count") 0
              then Some "Yes" else Some "No") r)
      (rows df).
Proof.
  intros outcome_yes count df'.
  assert (Hcount : count
                   = map (fun r =>
                            fold_left
                              (fun acc col =>
                                 (acc + Z.b2z (Pd.eq_str (Pd.str_upper (obj r col)) "YES"))%Z)
                              OUTCOME_COLS 0%Z) (rows df)).
  { unfold count, outcome_yes, Pd.sum_axis1, Pd.col_obj.
    rewrite repeat_as_map.
    rewrite (map_ext _ (fun col => map (fun r => Pd.eq_str (Pd.str_upper (obj r col)) "YES") (rows df)))
      by (intros col; apply map_map).
    apply (sum_axis1_rows
             (fun col r => Pd.eq_str (Pd.str_upper (obj r col)) "YES")). }
  assert (Hrows : rows df'
                  = map (fun r =>
                           set_num_cell "Comorbidity_Count"
                             (of_int
                                (fold_left
                                   (fun acc col =>
                                      (acc + Z.b2z (Pd.eq_str (Pd.str_upper (obj r col)) "YES"))%Z)
                                   OUTCOME_COLS 0%Z)) r) (rows df)).
  { unfold df', Pd.set_num; cbn [rows]. rewrite Hcount, map_map.
    apply zip_with_map_r. }
  unfold Pd.set_obj, Pd.np_where, Pd.col_num; cbn [rows].
  rewrite !map_map, zip_with_map_r, Hrows, map_map. reflexivity.
Qed.

Lemma load_data_rows (csv : DataFrame) :
  rows (load_data csv) = map (load_row (columns csv)) (rows csv).
Proof.
  unfold load_data. rewrite rows_count_any, rows_astype_fold, map_map.
  unfold load_row.
  destruct (existsb (String.eqb "Unnamed: 0") (columns csv)).
  - unfold Pd.drop; cbn [rows]. rewrite map_map. reflexivity.
  - reflexivity.
Qed.

Lemma load_row_outcome (cols : list string) (r : row) (c : string) :
  In c OUTCOME_COLS ->
  obj (load_row cols r) c = Pd.astype_str (obj r c).
Proof.
  intros H. unfold load_row.
  destruct H as [<-|[<-|[<-|[<-|[<-|[<-|[<-|[<-|[]]]]]]]]];
    destruct (existsb (String.eqb "Unnamed: 0") cols); reflexivity.
Qed.

Lemma load_row_count (cols : list string) (r : row) :
  num (load_row cols r) "Comorbidity_Count"
  = of_int (yes_count (load_row cols r)).
Proof.
  unfold yes_count, yes_among.
  rewrite (filter_ext_in (fun c => is_yes (obj (load_row cols r) c))
             (fun c => is_yes (Pd.astype_str (obj r c))))
    by (intros c Hc; now rewrite load_row_outcome).
  unfold load_row.
  set (base := if existsb (String.eqb "Unnamed: 0") cols then _ else r).
  assert (Hbase : forall c, In c OUTCOME_COLS -> obj base c = obj r c).
  { intros c Hc. unfold base.
    destruct Hc as [<-|[<-|[<-|[<-|[<-|[<-|[<-|[<-|[]]]]]]]]];
      destruct (existsb (String.eqb "Unnamed: 0") cols); reflexivity. }
  set (typed := fold_left _ OUTCOME_COLS base).
  assert (Htyped : forall c, In c OUTCOME_COLS ->
                             obj typed c = Pd.astype_str (obj r c)).
  { intros c Hc. rewrite <- (Hbase c Hc). unfold typed.
    destruct Hc as [<-|[<-|[<-|[<-|[<-|[<-|[<-|[<-|[]]]]]]]]]; reflexivity. }
  change (of_int
            (fold_left
               (fun acc col =>
                  (acc + Z.b2z (Pd.eq_str (Pd.str_upper (obj typed col)) "YES"))%Z)
               OUTCOME_COLS 0%Z)
          = of_int
              (Z.of_nat
                 (List.length
                    (filter (fun c => is_yes (Pd.astype_str (obj r c)))
                       OUTCOME_COLS)))).
  rewrite count_fold, Z.add_0_l. do 3 f_equal.
  apply filter_ext_in. intros c Hc.
  now rewrite eq_upper_is_yes, Htyped.
Qed.

Lemma load_row_any (cols : list string) (r : row) :
  obj (load_row cols r) "Any_Comorbidity"
  = if Pd.gt (num (load_row cols r) "Comorbidity_Count") 0
    then Some "Yes" else Some "No".
Proof. reflexivity. Qed.

Lemma gt_of_int_0 (n : Z) : Pd.gt (of_int n) 0 = (0 <? n)%Z.
Proof.
  unfold Pd.gt, of_int, Qle_bool, inject_Z; simpl.
  rewrite Z.mul_1_r. destruct (Z.leb_spec n 0), (Z.ltb_spec 0 n); simpl; lia || reflexivity.
Qed.

Lemma yes_among_bounds (cols : list string) (r : row) :
  (0 <= yes_among cols r <= Z.of_nat (List.length cols))%Z.
Proof.
  unfold yes_among. pose proof (filter_length_le (fun c => is_yes (obj r c)) cols).
  lia.
Qed.

(** C2.  Every record of the loaded table carries, in [Comorbidity_Count],
    the number of its eight outcome fields that equal Yes regardless of
    letter case, a number between 0 and 8, and [Any_Comorbidity] is Yes
    exactly when that number is positive. *)
Theorem comorbidity_count_spec (csv : DataFrame) (r : row) :
  In r (rows (load_data csv)) ->
  num r "Comorbidity_Count" = of_int (yes_count r) /\
  (0 <= yes_count r <= 8)%Z /\
  (obj r "Any_Comorbidity" = Some "Yes" <-> (yes_count r > 0)%Z).
Proof.
  rewrite load_data_rows, in_map_iff. intros (r0 & <- & _).
  split; [apply load_row_count|]. split; [apply (yes_among_bounds OUTCOME_COLS)|].
  rewrite load_row_any, load_row_count, gt_of_int_0.
  destruct (Z.ltb_spec 0 (yes_count (load_row (columns csv) r0))).
  - split; [lia | reflexivity].
  - split; [discriminate | lia].
Qed.

Lemma comorbidity_count_spec_witness :
  let r := hd (record None None [] []) (rows (load_data csv_missing_outcome)) in
  In r (rows (load_data csv_missing_outcome)) /\
  num r "Comorbidity_Count" = of_int (yes_count r) /\
  (0 <= yes_count r <= 8)%Z /\
  (obj r "Any_Comorbidity" = Some "Yes" <-> (yes_count r > 0)%Z).
Proof.
  intros r.
  assert (H : In r (rows (load_data csv_missing_outcome)))
    by (left; reflexivity).
  split; [exact H | exact (comorbidity_count_spec csv_missing_outcome r H)].
Defined.

(** ** Prevalence, column by column *)

Lemma count_true_filter {A : Type} (p : A -> bool) (l : list A) :
  Pd.count_true (map p l) = Z.of_nat (List.length (filter p l)).
Proof.
  induction l as [|a l IH]; [reflexivity|].
  cbn [map Pd.count_true fold_right filter].
  change (fold_right (fun b acc => (Z.b2z b + acc)%Z) 0%Z (map p l))
    with (Pd.count_true (map p l)).
  rewrite IH. destruct (p a); cbn [Z.b2z List.length]; lia.
Qed.

Lemma prevalence_of_formula (df : DataFrame) (col : string) :
  rows df <> [] ->
  prevalence_of df col
  = py_round1
      (Some (inject_Z (yes_rows df col)
             / inject_Z (Z.of_nat (List.length (rows df))) * 100)).
Proof.
  intros Hne. unfold prevalence_of, Pd.col_obj, yes_rows.
  rewrite !map_map.
  rewrite (map_ext _ (fun r => is_yes (obj r col)))
    by (intros r; apply eq_upper_is_yes).
  destruct (rows df) as [|r0 l] eqn:E; [contradiction|].
  rewrite <- (count_true_filter (fun r => is_yes (obj r col)) (r0 :: l)).
  rewrite <- (length_map (fun r => is_yes (obj r col)) (r0 :: l)).
  reflexivity.
Qed.

Lemma filter_remove_false (p : string -> bool) (c : string) (l : list string) :
  p c = false -> filter p (remove string_dec c l) = filter p l.
Proof.
  intros Hc. induction l as [|a l IH]; [reflexivity|].
  cbn [remove filter]. destruct (string_dec c a) as [<-|Hne].
  - now rewrite Hc.
  - cbn [filter]. now rewrite IH.
Qed.

(** C10.  A missing outcome value is the text nan once loaded: it never
    passes the Yes test, the record's count is the count over its other
    outcome fields, and every prevalence is still taken over all records of
    the table, this one included. *)
Theorem missing_outcome_counts_as_no
  (csv : DataFrame) (c : string) (i : nat) (r0 : row) :
  In c OUTCOME_COLS ->
  nth_error (rows csv) i = Some r0 ->
  obj r0 c = None ->
  exists r,
    nth_error (rows (load_data csv)) i = Some r /\
    obj r c = Some "nan" /\
    Pd.eq_str (Pd.str_upper (obj r c)) "YES" = false /\
    is_yes (obj r c) = false /\
    yes_count r = yes_among (remove string_dec c OUTCOME_COLS) r /\
    num r "Comorbidity_Count"
    = of_int (yes_among (remove string_dec c OUTCOME_COLS) r) /\
    forall col,
      In col OUTCOME_COLS ->
      prevalence_of (load_data csv) col
      = py_round1
          (Some (inject_Z (yes_rows (load_data csv) col)
                 / inject_Z (Z.of_nat (List.length (rows csv))) * 100)).
Proof.
  intros Hc Hi Hnan. exists (load_row (columns csv) r0).
  assert (Hcell : obj (load_row (columns csv) r0) c = Some "nan")
    by (now rewrite load_row_outcome, Hnan).
  assert (Hyes : yes_count (load_row (columns csv) r0)
                 = yes_among (remove string_dec c OUTCOME_COLS)
                     (load_row (columns csv) r0)).
  { unfold yes_count, yes_among. rewrite filter_remove_false; [reflexivity|].
    now rewrite Hcell. }
  repeat split.
  - now rewrite load_data_rows, nth_error_map, Hi.
  - exact Hcell.
  - now rewrite Hcell.
  - now rewrite Hcell.
  - exact Hyes.
  - now rewrite load_row_count, Hyes.
  - intros col _. rewrite prevalence_of_formula.
    + now rewrite load_data_rows, length_map.
    + rewrite load_data_rows. intros E. apply map_eq_nil in E.
      rewrite E in Hi. now destruct i.
Qed.

Lemma missing_outcome_counts_as_no_witness :
  exists r,
    nth_error (rows (load_data csv_missing_outcome)) 0 = Some r /\
    obj r "Heart_Attack" = Some "nan" /\
    num r "Comorbidity_Count" = of_int 1 /\
    prevalence_of (load_data csv_missing_outcome) "Heart_Attack"
    = Some (inject_Z 500 / 10).
Proof.
  destruct (missing_outcome_counts_as_no csv_missing_outcome "Heart_Attack" 0
              (record (Some 1) (Some "No") []
                 [("Heart_Attack", None); ("Diabetes", Some "yes")]))
    as (r & Hr & Hcell & _ & _ & _ & Hnum & Hprev).
  - left; reflexivity.
  - reflexivity.
  - reflexivity.
  - exists r. split; [exact Hr|]. split; [exact Hcell|].
    injection Hr as <-. split; [exact Hnum|].
    rewrite (Hprev "Heart_Attack" (or_introl eq_refl)). reflexivity.
Defined.

(** ** The filter, record by record *)

Lemma select_map_filter {A : Type} (p : A -> bool) (l : list A) :
  Pd.select l (map p l) = filter p l.
Proof.
  induction l as [|a l IH]; [reflexivity|].
  cbn [map Pd.select filter]. rewrite IH. reflexivity.
Qed.

Lemma and_mask_map {A : Type} (p q : A -> bool) (l : list A) :
  Pd.and_mask (map p l) (map q l) = map (fun a => p a && q a) l.
Proof. apply zip_with_map_map. Qed.

Lemma and_isin_if_any {A : Type} (p : A -> bool) (x : A -> option string)
  (selected : list string) (l : list A) :
  match selected with
  | [] => map p l
  | _ => Pd.and_mask (map p l) (map (fun v => Pd.isin v selected) (map x l))
  end
  = map (fun a => p a && isin_if_any (x a) selected) l.
Proof.
  destruct selected as [|s selected].
  - apply map_ext. intros a. cbn [isin_if_any]. now rewrite andb_true_r.
  - rewrite map_map, and_mask_map. reflexivity.
Qed.

Lemma build_mask_rows (sel : FilterSelection) (df : DataFrame) :
  build_mask sel df = map (passes sel) (rows df).
Proof.
  unfold build_mask, Pd.col_num, Pd.col_obj.
  rewrite !(map_map (fun r : row => num r _)).
  rewrite !and_mask_map.
  rewrite (and_isin_if_any _ (fun r => obj r "Gender")).
  rewrite (and_isin_if_any _ (fun r => obj r "Ethnicity")).
  rewrite (and_isin_if_any _ (fun r => obj r "Education_Level")).
  reflexivity.
Qed.

Lemma filter_rows_rows (sel : FilterSelection) (df : DataFrame) :
  rows (filter_rows sel df) = filter (passes sel) (rows df).
Proof.
  unfold filter_rows, Pd.getitem_mask; cbn [rows].
  now rewrite build_mask_rows, select_map_filter.
Qed.

Lemma le_iff (x y : float) :
  Pd.le x y = true <-> exists a b, x = Some a /\ y = Some b /\ a <= b.
Proof.
  destruct x as [a|], y as [b|]; cbn [Pd.le].
  - rewrite Qle_bool_iff. split.
    + intros H. now exists a, b.
    + intros (a' & b' & [= <-] & [= <-] & H). exact H.
  - split; [discriminate | intros (? & ? & _ & [=] & _)].
  - split; [discriminate | intros (? & ? & [=] & _)].
  - split; [discriminate | intros (? & ? & [=] & _)].
Qed.

Lemma between_within (x lo hi : float) :
  Pd.between x lo hi = true <-> within x lo hi.
Proof.
  unfold Pd.between, within. rewrite andb_true_iff, !le_iff. split.
  - intros [(l & v & -> & -> & Hl) (v' & h & [= <-] & -> & Hh)].
    now exists v, l, h.
  - intros (v & l & h & -> & -> & -> & Hl & Hh). split.
    + now exists l, v.
    + now exists v, h.
Qed.

Lemma isin_if_any_allowed (x : option string) (selected : list string) :
  isin_if_any x selected = true <-> allowed x selected.
Proof.
  unfold allowed. destruct selected as [|s0 selected].
  - split; [now left | reflexivity].
  - cbn [isin_if_any]. unfold Pd.isin. destruct x as [s|].
    + rewrite existsb_exists. split.
      * intros (t & Ht & E). apply String.eqb_eq in E. subst t.
        right. now exists s.
      * intros [[=] | (t & [= <-] & Ht)]. exists s.
        split; [exact Ht | apply String.eqb_refl].
    + split; [discriminate | intros [[=] | (t & [=] & _)]].
Qed.

Lemma passes_satisfies (sel : FilterSelection) (r : row) :
  passes sel r = true <-> satisfies sel r.
Proof.
  unfold passes, satisfies, between_int, within_int.
  rewrite !andb_true_iff, !between_within, !isin_if_any_allowed. tauto.
Qed.

(** C1.  A record of the table is in the filtered table exactly when its
    six numeric values lie in their closed ranges and each of Gender,
    Ethnicity and Education_Level is a selected value or has an empty
    selection. *)
Theorem filter_keeps_exactly_satisfying
  (df : DataFrame) (sel : FilterSelection) (r : row) :
  In r (rows (filter_rows sel df)) <-> In r (rows df) /\ satisfies sel r.
Proof. now rewrite filter_rows_rows, filter_In, passes_satisfies. Qed.

Lemma within_some (x lo hi : float) : within x lo hi -> x <> None.
Proof. intros (v & l & h & -> & _). discriminate. Qed.

Lemma satisfies_no_nan (sel : FilterSelection) (r : row) (c : string) :
  In c RANGE_COLS -> satisfies sel r -> num r c <> None.
Proof.
  intros Hc (H1 & H2 & H3 & H4 & H5 & H6 & _).
  destruct Hc as [<-|[<-|[<-|[<-|[<-|[<-|[]]]]]]];
    eapply within_some; eassumption.
Qed.

(** C9.  A record with a missing value in one of the six range-filtered
    columns is in no filtered table, whatever the selection, the initial
    one included. *)
Theorem missing_numeric_never_passes (df : DataFrame) (r : row) (c : string) :
  In c RANGE_COLS ->
  num r c = None ->
  (forall sel, ~ In r (rows (filter_rows sel df))) /\
  (forall ui out, apply_filters ui df = Ok out -> ~ In r (rows out)).
Proof.
  intros Hc Hnan.
  assert (H : forall sel, ~ In r (rows (filter_rows sel df))).
  { intros sel Hin.
    rewrite filter_rows_rows, filter_In, passes_satisfies in Hin.
    destruct Hin as [_ Hs]. exact (satisfies_no_nan sel r c Hc Hs Hnan). }
  split; [exact H|].
  intros ui out. unfold apply_filters.
  destruct (default_selection df) as [defaults|e]; cbn [bind].
  - intros [= <-]. apply H.
  - discriminate.
Qed.

Lemma missing_numeric_never_passes_witness :
  let r := participant None (Some 2) (Some "Female") in
  (forall sel, ~ In r (rows (filter_rows sel one_age_missing))) /\
  (forall ui out,
      apply_filters ui one_age_missing = Ok out -> ~ In r (rows out)).
Proof.
  intros r.
  apply (missing_numeric_never_passes one_age_missing r "Age").
  - left; reflexivity.
  - reflexivity.
Defined.

Lemma filter_keeps_exactly_satisfying_witness :
  In (participant (Some 40) (Some 2) (Some "Male"))
    (rows (filter_rows sel_age_40 two_ages)) /\
  ~ In (participant (Some 41) (Some 2) (Some "Female"))
      (rows (filter_rows sel_age_40 two_ages)).
Proof.
  split.
  - apply (proj2 (filter_keeps_exactly_satisfying two_ages sel_age_40 _)).
    split; [left; reflexivity|].
    apply passes_satisfies. reflexivity.
  - intros H.
    apply (proj1 (filter_keeps_exactly_satisfying two_ages sel_age_40 _)) in H.
    destruct H as [_ H]. apply passes_satisfies in H. discriminate H.
Defined.

(** ** The initial selection *)

Lemma qmin_le_l (a b : Q) : Pd.qmin a b <= a.
Proof.
  unfold Pd.qmin. destruct (Qle_bool a b) eqn:E.
  - apply Qle_refl.
  - apply Qlt_le_weak, Qnot_le_lt. intros H. apply Qle_bool_iff in H. congruence.
Qed.

Lemma qmin_le_r (a b : Q) : Pd.qmin a b <= b.
Proof.
  unfold Pd.qmin. destruct (Qle_bool a b) eqn:E.
  - now apply Qle_bool_iff.
  - apply Qle_refl.
Qed.

Lemma qmax_ge_l (a b : Q) : a <= Pd.qmax a b.
Proof.
  unfold Pd.qmax. destruct (Qle_bool a b) eqn:E.
  - now apply Qle_bool_iff.
  - apply Qle_refl.
Qed.

Lemma qmax_ge_r (a b : Q) : b <= Pd.qmax a b.
Proof.
  unfold Pd.qmax. destruct (Qle_bool a b) eqn:E.
  - apply Qle_refl.
  - apply Qlt_le_weak, Qnot_le_lt. intros H. apply Qle_bool_iff in H. congruence.
Qed.

Lemma fold_qmin_le (l : list Q) (a : Q) :
  fold_left Pd.qmin l a <= a /\ forall v, In v l -> fold_left Pd.qmin l a <= v.
Proof.
  revert a; induction l as [|b l IH]; intros a; cbn [fold_left].
  - split; [apply Qle_refl | intros v []].
  - destruct (IH (Pd.qmin a b)) as [H1 H2]. split.
    + eapply Qle_trans; [exact H1 | apply qmin_le_l].
    + intros v [<-|Hv].
      * eapply Qle_trans; [exact H1 | apply qmin_le_r].
      * now apply H2.
Qed.

Lemma fold_qmax_ge (l : list Q) (a : Q) :
  a <= fold_left Pd.qmax l a /\ forall v, In v l -> v <= fold_left Pd.qmax l a.
Proof.
  revert a; induction l as [|b l IH]; intros a; cbn [fold_left].
  - split; [apply Qle_refl | intros v []].
  - destruct (IH (Pd.qmax a b)) as [H1 H2]. split.
    + eapply Qle_trans; [apply qmax_ge_l | exact H1].
    + intros v [<-|Hv].
      * eapply Qle_trans; [apply qmax_ge_r | exact H1].
      * now apply H2.
Qed.

Lemma in_dropna {A : Type} (a : A) (l : list (option A)) :
  In a (Pd.dropna l) <-> In (Some a) l.
Proof.
  induction l as [|[b|] l IH]; cbn [Pd.dropna In].
  - tauto.
  - rewrite IH. split; intros [H|H]; auto; left; congruence.
  - rewrite IH. split; [auto | intros [H|H]; [discriminate | exact H]].
Qed.

Lemma min_le (l : list float) (m v : Q) :
  Pd.min l = Some m -> In (Some v) l -> m <= v.
Proof.
  unfold Pd.min, Pd.reduce. intros Hm Hv. apply in_dropna in Hv.
  destruct (Pd.dropna l) as [|a l']; [discriminate|].
  injection Hm as <-. destruct (fold_qmin_le l' a) as [H1 H2].
  destruct Hv as [<-|Hv]; [exact H1 | now apply H2].
Qed.

Lemma max_ge (l : list float) (m v : Q) :
  Pd.max l = Some m -> In (Some v) l -> v <= m.
Proof.
  unfold Pd.max, Pd.reduce. intros Hm Hv. apply in_dropna in Hv.
  destruct (Pd.dropna l) as [|a l']; [discriminate|].
  injection Hm as <-. destruct (fold_qmax_ge l' a) as [H1 H2].
  destruct Hv as [<-|Hv]; [exact H1 | now apply H2].
Qed.

Lemma py_int_whole (q : Q) (z : Z) : q == inject_Z z -> py_int (Some q) = Ok z.
Proof.
  intros H. unfold py_int. f_equal.
  unfold Qeq in H; simpl in H. rewrite Z.mul_1_r in H.
  rewrite H. apply Z.quot_mul. discriminate.
Qed.

Lemma round_half_even_whole (q : Q) (z : Z) :
  q == inject_Z z -> round_half_even q = z.
Proof.
  intros H.
  assert (F : Qfloor q = z) by (rewrite H; apply Qfloor_Z).
  assert (C : Qcompare (q - inject_Z z) (1 # 2) = Lt).
  { apply -> Qlt_alt. rewrite H.
    setoid_replace (inject_Z z - inject_Z z) with 0 by ring. reflexivity. }
  unfold round_half_even. cbv zeta. now rewrite F, C.
Qed.

Lemma py_round1_one_decimal (q : Q) (z : Z) :
  q * 10 == inject_Z z -> exists q', py_round1 (Some q) = Some q' /\ q' == q.
Proof.
  intros H. eexists; split; [reflexivity|].
  rewrite (round_half_even_whole _ _ H), <- H. field.
Qed.

Lemma int_bounds_cover (df : DataFrame) (c : string) :
  whole (Pd.min (Pd.col_num df c)) ->
  whole (Pd.max (Pd.col_num df c)) ->
  exists rg,
    int_bounds df c = Ok rg /\
    forall r, In r (rows df) -> num r c <> None ->
              between_int (num r c) rg = true.
Proof.
  intros (qm & zlo & Hmin & Hlo) (qM & zhi & Hmax & Hhi).
  exists (zlo, zhi). split.
  - unfold int_bounds.
    now rewrite Hmin, Hmax, (py_int_whole _ _ Hlo), (py_int_whole _ _ Hhi).
  - intros r Hr Hnum. destruct (num r c) as [v|] eqn:Ev; [|contradiction].
    assert (Hin : In (Some v) (Pd.col_num df c)).
    { unfold Pd.col_num. rewrite <- Ev.
    exact (in_map (fun r => num r c) _ _ Hr). }
    unfold between_int, Pd.between, of_int; cbn [fst snd Pd.le].
    apply andb_true_iff; split; apply Qle_bool_iff.
    + rewrite <- Hlo. exact (min_le _ _ _ Hmin Hin).
    + rewrite <- Hhi. exact (max_ge _ _ _ Hmax Hin).
Qed.

Lemma income_bounds_cover (df : DataFrame) (c : string) :
  one_decimal (Pd.min (Pd.col_num df c)) ->
  one_decimal (Pd.max (Pd.col_num df c)) ->
  forall r, In r (rows df) -> num r c <> None ->
            Pd.between (num r c) (py_round1 (Pd.min (Pd.col_num df c)))
              (py_round1 (Pd.max (Pd.col_num df c))) = true.
Proof.
  intros (qm & zlo & Hmin & Hlo) (qM & zhi & Hmax & Hhi) r Hr Hnum.
  destruct (num r c) as [v|] eqn:Ev; [|contradiction].
  assert (Hin : In (Some v) (Pd.col_num df c)).
  { unfold Pd.col_num. rewrite <- Ev.
    exact (in_map (fun r => num r c) _ _ Hr). }
  rewrite Hmin, Hmax.
  destruct (py_round1_one_decimal _ _ Hlo) as (lo & -> & Elo).
  destruct (py_round1_one_decimal _ _ Hhi) as (hi & -> & Ehi).
  unfold Pd.between; cbn [Pd.le].
  apply andb_true_iff; split; apply Qle_bool_iff.
  - rewrite Elo. exact (min_le _ _ _ Hmin Hin).
  - rewrite Ehi. exact (max_ge _ _ _ Hmax Hin).
Qed.

Lemma in_unique_from (s : string) (seen l : list string) :
  In s l -> In s seen \/ In s (Pd.unique_from seen l).
Proof.
  revert seen; induction l as [|t l IH]; intros seen; [intros []|].
  intros [<-|Hs]; cbn [Pd.unique_from].
  - destruct (existsb (String.eqb t) seen) eqn:E.
    + left. apply existsb_exists in E as (u & Hu & Eu).
      apply String.eqb_eq in Eu. now subst u.
    + right. now left.
  - destruct (existsb (String.eqb t) seen).
    + now apply IH.
    + destruct (IH (t :: seen) Hs) as [[<-|H]|H].
      * right. now left.
      * now left.
      * right. now right.
Qed.

Lemma in_insert_str (s t : string) (l : list string) :
  In s (insert_str t l) <-> s = t \/ In s l.
Proof.
  induction l as [|u l IH]; cbn [insert_str In].
  - intuition congruence.
  - destruct (String.leb t u); cbn [In]; rewrite ?IH; intuition congruence.
Qed.

Lemma in_sorted (s : string) (l : list string) : In s (sorted l) <-> In s l.
Proof.
  unfold sorted. induction l as [|t l IH]; cbn [fold_right In]; [tauto|].
  rewrite in_insert_str, IH. intuition congruence.
Qed.

Lemma options_cover (df : DataFrame) (c : string) (r : row) :
  In r (rows df) -> obj r c <> None ->
  isin_if_any (obj r c) (options df c) = true.
Proof.
  intros Hr Hobj. apply isin_if_any_allowed. right.
  destruct (obj r c) as [s|] eqn:Es; [|contradiction].
  exists s. split; [reflexivity|].
  unfold options. apply in_sorted.
  destruct (in_unique_from s [] (Pd.dropna (Pd.col_obj df c))) as [[]|H];
    [|exact H].
  apply in_dropna. unfold Pd.col_obj. rewrite <- Es.
  exact (in_map (fun r => obj r c) _ _ Hr).
Qed.

Lemma filter_all {A : Type} (p : A -> bool) (l : list A) :
  (forall a, In a l -> p a = true) -> filter p l = l.
Proof.
  induction l as [|a l IH]; intros H; [reflexivity|].
  cbn [filter]. rewrite (H a (or_introl eq_refl)), IH; [reflexivity|].
  intros b Hb. apply H. now right.
Qed.




(** ** Sorting kernels *)

Section InsertionKernel.
Variable before : Q -> Q -> bool.
Hypothesis before_true : forall a b, before a b = true -> a <= b.
Hypothesis before_false : forall a b, before a b = false -> b <= a.

Let key_le (p q : Q * nat) : Prop := fst p <= fst q.

Lemma insert_by_perm (x : Q * nat) (l : list (Q * nat)) :
  Permutation (Pd.insert_by before x l) (x :: l).
Proof.
  induction l as [|y l IH]; cbn [Pd.insert_by]; [reflexivity|].
  destruct (before (fst x) (fst y)); [reflexivity|].
  rewrite IH. apply perm_swap.
Qed.

Lemma isort_by_perm (l : list (Q * nat)) :
  Permutation (fold_right (Pd.insert_by before) [] l) l.
Proof.
  induction l as [|x l IH]; cbn [fold_right]; [reflexivity|].
  rewrite insert_by_perm. now constructor.
Qed.

Lemma insert_by_sorted (x : Q * nat) (l : list (Q * nat)) :
  StronglySorted key_le l -> StronglySorted key_le (Pd.insert_by before x l).
Proof.
  induction 1 as [|y l Hs IH Hy]; cbn [Pd.insert_by].
  - repeat constructor.
  - destruct (before (fst x) (fst y)) eqn:E.
    + apply before_true in E. constructor.
      * now constructor.
      * constructor; [exact E|].
        rewrite Forall_forall in *. intros z Hz.
        eapply Qle_trans; [exact E | now apply Hy].
    + apply before_false in E. constructor; [exact IH|].
      rewrite Forall_forall in *. intros z Hz.
      apply (Permutation_in _ (insert_by_perm x l)) in Hz.
      destruct Hz as [<-|Hz]; [exact E | now apply Hy].
Qed.

Lemma isort_by_sorted (l : list (Q * nat)) :
  StronglySorted key_le (fold_right (Pd.insert_by before) [] l).
Proof.
  induction l as [|x l IH]; cbn [fold_right]; [constructor|].
  now apply insert_by_sorted.
Qed.

Lemma combine_seq_nth (l : list Q) (s : nat) (v : Q) (i : nat) :
  In (v, i) (combine l (seq s (List.length l))) -> nth (i - s) l 0 = v.
Proof.
  revert s; induction l as [|a l IH]; intros s; cbn [combine seq List.length];
    [intros []|].
  intros [[= -> ->]|H].
  - now rewrite Nat.sub_diag.
  - pose proof (in_combine_r _ _ _ _ H) as Hi. apply in_seq in Hi.
    specialize (IH _ H).
    replace (i - s)%nat with (S (i - S s)) by lia. exact IH.
Qed.

Lemma map_snd_combine_seq (l : list Q) (s : nat) :
  map snd (combine l (seq s (List.length l))) = seq s (List.length l).
Proof.
  revert s; induction l as [|a l IH]; intros s; [reflexivity|].
  cbn [List.length seq combine map snd]. now rewrite IH.
Qed.

Lemma argsort_by_contract : Pd.argsort_contract (Pd.argsort_by before).
Proof.
  intros l. unfold Pd.argsort_by.
  set (ps := combine l (seq 0 (List.length l))).
  pose proof (isort_by_perm ps) as Hp.
  split.
  - rewrite <- (map_snd_combine_seq l 0). now apply Permutation_map.
  - rewrite map_map.
    rewrite (map_ext_in _ fst).
    + pose proof (isort_by_sorted ps) as Hs. clear Hp.
      induction Hs as [|p m Hs IH Hf]; cbn [map]; constructor.
      * exact IH.
      * rewrite Forall_forall in *. intros q Hq.
        apply in_map_iff in Hq as (p' & <- & Hp'). now apply Hf.
    + intros [v i] Hin. apply (Permutation_in _ Hp) in Hin.
      cbn [fst snd]. rewrite <- (combine_seq_nth l 0 v i Hin).
      now rewrite Nat.sub_0_r.
Qed.
End InsertionKernel.

Lemma argsort_stable_contract : Pd.argsort_contract Pd.argsort_stable.
Proof.
  apply argsort_by_contract.
  - intros a b H. now apply Qle_bool_iff.
  - intros a b H. apply Qlt_le_weak, Qnot_le_lt. intros H'.
    apply Qle_bool_iff in H'. congruence.
Qed.

Lemma argsort_ties_reversed_contract :
  Pd.argsort_contract Pd.argsort_ties_reversed.
Proof.
  apply argsort_by_contract.
  - intros a b H. apply negb_true_iff in H.
    apply Qlt_le_weak, Qnot_le_lt. intros H'.
    apply Qle_bool_iff in H'. congruence.
  - intros a b H. apply negb_false_iff in H. now apply Qle_bool_iff.
Qed.

(** ** Sorting a frame without missing keys *)

Lemma dropna_map_Some {A : Type} (l : list A) : Pd.dropna (map Some l) = l.
Proof. induction l as [|a l IH]; cbn; [reflexivity | now rewrite IH]. Qed.

Lemma positions_notna_Some {A : Type} (l : list A) (i : nat) :
  Pd.positions Pd.notna i (map Some l) = seq i (List.length l).
Proof.
  revert i; induction l as [|a l IH]; intros i; cbn; [reflexivity|].
  now rewrite IH.
Qed.

Lemma positions_isna_Some {A : Type} (l : list A) (i : nat) :
  Pd.positions Pd.isna i (map Some l) = [].
Proof.
  revert i; induction l as [|a l IH]; intros i; cbn; [reflexivity|].
  apply IH.
Qed.

Lemma map_nth_seq {A : Type} (l : list A) (d : A) :
  map (fun i => nth i l d) (seq 0 (List.length l)) = l.
Proof.
  induction l as [|a l IH]; [reflexivity|].
  cbn [List.length seq map nth]. rewrite <- seq_shift, map_map.
  cbn [nth]. now rewrite IH.
Qed.

Lemma take_seq_from {A : Type} (p l : list A) :
  Pd.take (p ++ l) (seq (List.length p) (List.length l)) = l.
Proof.
  revert p; induction l as [|a l IH]; intros p; [reflexivity|].
  unfold Pd.take in *. cbn [List.length seq flat_map].
  rewrite nth_error_app2, Nat.sub_diag by lia. cbn [nth_error app]. f_equal.
  specialize (IH (p ++ [a])%list).
  rewrite <- app_assoc, List.length_app in IH. cbn [List.length app] in IH.
  rewrite Nat.add_1_r in IH. exact IH.
Qed.

Lemma take_perm {A : Type} (l : list A) (indexer : list nat) :
  Permutation indexer (seq 0 (List.length l)) ->
  Permutation (Pd.take l indexer) l.
Proof.
  intros H. unfold Pd.take. rewrite H. apply Permutation_refl'.
  exact (take_seq_from [] l).
Qed.

Lemma take_map_nth {A : Type} (l : list A) (d : A) (indexer : list nat) :
  (forall i, In i indexer -> (i < List.length l)%nat) ->
  Pd.take l indexer = map (fun i => nth i l d) indexer.
Proof.
  unfold Pd.take. induction indexer as [|i m IH]; intros H; [reflexivity|].
  cbn [flat_map map]. rewrite IH by (intros j Hj; apply H; now right).
  rewrite (nth_error_nth' l d) by (apply H; now left). reflexivity.
Qed.

Lemma sorted_snoc {A : Type} (R : A -> A -> Prop) (l : list A) (a : A) :
  StronglySorted R l -> Forall (fun b => R b a) l ->
  StronglySorted R (l ++ [a]).
Proof.
  induction 1 as [|b l Hs IH Hb]; intros Hf; cbn [app].
  - repeat constructor.
  - inversion Hf as [|? ? Hba Hl]; subst. constructor; [now apply IH|].
    apply Forall_app. split; [exact Hb | now constructor].
Qed.

Lemma sorted_rev {A : Type} (R : A -> A -> Prop) (l : list A) :
  StronglySorted R l -> StronglySorted (fun a b => R b a) (rev l).
Proof.
  induction 1 as [|a l Hs IH Ha]; cbn [rev]; [constructor|].
  apply sorted_snoc; [exact IH|].
  apply Forall_rev. exact Ha.
Qed.

Section Descending.
Variable kernel : list Q -> list nat.
Hypothesis kernel_ok : Pd.argsort_contract kernel.
Variable qs : list Q.

Let n := List.length qs.

Lemma nargsort_desc_eq :
  Pd.nargsort kernel (map Some qs) false
  = rev (map (fun i => nth i (rev (seq 0 n)) 0%nat) (kernel (rev qs))).
Proof.
  unfold Pd.nargsort.
  now rewrite dropna_map_Some, positions_notna_Some, positions_isna_Some,
    app_nil_r.
Qed.

Lemma kernel_rev_perm : Permutation (kernel (rev qs)) (seq 0 n).
Proof.
  destruct (kernel_ok (rev qs)) as [Hp _]. now rewrite List.length_rev in Hp.
Qed.

Lemma nargsort_desc_perm :
  Permutation (Pd.nargsort kernel (map Some qs) false) (seq 0 n).
Proof.
  rewrite nargsort_desc_eq, <- Permutation_rev, kernel_rev_perm.
  pose proof (map_nth_seq (rev (seq 0 n)) 0%nat) as E.
  rewrite List.length_rev, List.length_seq in E.
  rewrite E. symmetry. apply Permutation_rev.
Qed.

Lemma nargsort_desc_values :
  StronglySorted (fun a b => b <= a)
    (map (fun j => nth j qs 0) (Pd.nargsort kernel (map Some qs) false)).
Proof.
  rewrite nargsort_desc_eq, map_rev, map_map.
  apply sorted_rev.
  destruct (kernel_ok (rev qs)) as [_ Hs].
  rewrite (map_ext_in _ (fun i => nth i (rev qs) 0)); [exact Hs|].
  intros i Hi. apply (Permutation_in _ kernel_rev_perm) in Hi.
  apply in_seq in Hi. fold n.
  rewrite (rev_nth (seq 0 n)) by (rewrite List.length_seq; lia).
  rewrite List.length_seq, seq_nth by lia.
  rewrite (rev_nth qs) by (fold n; lia). reflexivity.
Qed.
End Descending.

Lemma take_map {A B : Type} (f : A -> B) (l : list A) (indexer : list nat) :
  Pd.take (map f l) indexer = map f (Pd.take l indexer).
Proof.
  unfold Pd.take. induction indexer as [|i m IH]; [reflexivity|].
  cbn [flat_map]. rewrite map_app, IH, nth_error_map.
  now destruct (nth_error l i).
Qed.

(** Sorting in descending order a frame whose keys are all present: the
    rows are permuted and the keys come out in descending order. *)
Lemma sort_values_descending {A : Type} (kernel : list Q -> list nat)
  (l : list (A * float)) (qs : list Q) :
  Pd.argsort_contract kernel ->
  map snd l = map Some qs ->
  Permutation (Pd.sort_values kernel snd false l) l /\
  exists vs,
    map snd (Pd.sort_values kernel snd false l) = map Some vs /\
    StronglySorted (fun a b => b <= a) vs.
Proof.
  intros Hk Hl. unfold Pd.sort_values. rewrite Hl.
  assert (Hlen : List.length l = List.length qs)
    by (rewrite <- (length_map snd l), Hl; apply length_map).
  pose proof (nargsort_desc_perm kernel Hk qs) as Hp.
  split.
  - apply take_perm. now rewrite Hlen.
  - exists (map (fun j => nth j qs 0) (Pd.nargsort kernel (map Some qs) false)).
    split; [|now apply nargsort_desc_values].
    rewrite <- take_map, Hl, take_map. f_equal.
    apply take_map_nth. intros i Hi.
    apply (Permutation_in _ Hp) in Hi. apply in_seq in Hi. lia.
Qed.

(** ** The prevalence table *)

Lemma round_half_even_comp (x y : Q) :
  x == y -> round_half_even x = round_half_even y.
Proof.
  intros H. unfold round_half_even. cbv zeta.
  assert (F : Qfloor x = Qfloor y) by now rewrite H.
  assert (C : Qcompare (x - inject_Z (Qfloor x)) (1 # 2)
              = Qcompare (y - inject_Z (Qfloor y)) (1 # 2))
    by now rewrite F, H.
  now rewrite C, F.
Qed.

Lemma prevalence_of_value (df : DataFrame) (col : string) :
  rows df <> [] -> prevalence_of df col = Some (prevalence_value df col).
Proof.
  intros Hne. rewrite (prevalence_of_formula df col Hne).
  unfold py_round1, prevalence_value, round1; cbn [option_map].
  do 3 f_equal. apply round_half_even_comp.
  assert (Hn : ~ inject_Z (Z.of_nat (List.length (rows df))) == 0).
  { destruct (rows df); [contradiction|]. discriminate. }
  field. exact Hn.
Qed.

Lemma prevalence_rows_values (df : DataFrame) :
  rows df <> [] ->
  prevalence_rows df
  = map (fun col => (nice_label col, Some (prevalence_value df col)))
      OUTCOME_COLS.
Proof.
  intros Hne. unfold prevalence_rows. apply map_ext. intros col.
  now rewrite prevalence_of_value.
Qed.

Lemma prevalence_keys (df : DataFrame) :
  rows df <> [] ->
  map snd (prevalence_rows df)
  = map Some (map (prevalence_value df) OUTCOME_COLS).
Proof.
  intros Hne. now rewrite prevalence_rows_values, !map_map.
Qed.






(** ** Quantiles *)

Lemma insert_Q_perm (x : Q) (l : list Q) :
  Permutation (Pd.insert_Q x l) (x :: l).
Proof.
  induction l as [|y l IH]; cbn [Pd.insert_Q]; [reflexivity|].
  destruct (Qle_bool x y); [reflexivity|].
  rewrite IH. apply perm_swap.
Qed.

Lemma sort_Q_perm (l : list Q) : Permutation (Pd.sort_Q l) l.
Proof.
  unfold Pd.sort_Q. induction l as [|x l IH]; cbn [fold_right]; [reflexivity|].
  rewrite insert_Q_perm. now constructor.
Qed.

Lemma insert_Q_sorted (x : Q) (l : list Q) :
  StronglySorted Qle l -> StronglySorted Qle (Pd.insert_Q x l).
Proof.
  induction 1 as [|y l Hs IH Hy]; cbn [Pd.insert_Q].
  - repeat constructor.
  - destruct (Qle_bool x y) eqn:E.
    + apply Qle_bool_iff in E. constructor; [now constructor|].
      constructor; [exact E|].
      rewrite Forall_forall in *. intros z Hz.
      eapply Qle_trans; [exact E | now apply Hy].
    + assert (E' : y <= x).
      { apply Qlt_le_weak, Qnot_le_lt. intros H.
        apply Qle_bool_iff in H. congruence. }
      constructor; [exact IH|].
      rewrite Forall_forall in *. intros z Hz.
      apply (Permutation_in _ (insert_Q_perm x l)) in Hz.
      destruct Hz as [<-|Hz]; [exact E' | now apply Hy].
Qed.

Lemma sort_Q_sorted (l : list Q) : StronglySorted Qle (Pd.sort_Q l).
Proof.
  unfold Pd.sort_Q. induction l as [|x l IH]; cbn [fold_right]; [constructor|].
  now apply insert_Q_sorted.
Qed.

Lemma sorted_nth_le (s : list Q) (d : Q) :
  StronglySorted Qle s ->
  forall i j, (i <= j < List.length s)%nat -> nth i s d <= nth j s d.
Proof.
  induction 1 as [|a s Hs IH Ha]; intros i j Hij; cbn [List.length] in Hij;
    [lia|].
  destruct j as [|j]; [replace i with 0%nat by lia; apply Qle_refl|].
  destruct i as [|i]; cbn [nth].
  - rewrite Forall_forall in Ha. apply Ha, nth_In. lia.
  - apply IH. lia.
Qed.

Lemma interpolate_0 (s : list Q) (d : Q) :
  Pd.interpolate s d 0 == nth 0 s d.
Proof.
  unfold Pd.interpolate. cbv zeta.
  set (n := Z.of_nat (List.length s)).
  assert (Hh : inject_Z (n - 1) * 0 == 0) by ring.
  assert (Hlo : Qfloor (inject_Z (n - 1) * 0) = 0%Z) by now rewrite Hh.
  rewrite Hlo. cbn [Z.to_nat]. ring.
Qed.

Lemma interpolate_1 (s : list Q) (d : Q) :
  s <> [] -> Pd.interpolate s d 1 == nth (List.length s - 1) s d.
Proof.
  intros Hne. unfold Pd.interpolate. cbv zeta.
  set (n := Z.of_nat (List.length s)).
  assert (Hn : (1 <= n)%Z) by (unfold n; destruct s; [contradiction | cbn [List.length]; lia]).
  assert (Hh : inject_Z (n - 1) * 1 == inject_Z (n - 1)) by ring.
  assert (Hlo : Qfloor (inject_Z (n - 1) * 1) = (n - 1)%Z)
    by (rewrite Hh; apply Qfloor_Z).
  rewrite Hlo. replace (Z.min (n - 1 + 1) (n - 1)) with (n - 1)%Z by lia.
  replace (Z.to_nat (n - 1)) with (List.length s - 1)%nat by (unfold n; lia).
  ring.
Qed.

Lemma quantile_sorted (vals : list float) (p q : Q) :
  Pd.quantile vals p = Some q ->
  exists a0 t,
    Pd.sort_Q (Pd.dropna vals) = a0 :: t /\ q = Pd.interpolate (a0 :: t) a0 p.
Proof.
  unfold Pd.quantile.
  destruct (Pd.sort_Q (Pd.dropna vals)) as [|a0 t]; [discriminate|].
  intros H. exists a0, t. split; [reflexivity | congruence].
Qed.

(** The quantile at 0 is below every value, the quantile at 1 above. *)
Lemma quantile_0_le (vals : list float) (q0 v : Q) :
  Pd.quantile vals 0 = Some q0 -> In (Some v) vals -> q0 <= v.
Proof.
  intros Hq Hv. destruct (quantile_sorted _ _ _ Hq) as (a0 & t & Es & ->).
  apply in_dropna in Hv.
  apply (Permutation_in _ (Permutation_sym (sort_Q_perm _))) in Hv.
  pose proof (sort_Q_sorted (Pd.dropna vals)) as Hs.
  rewrite Es in Hv, Hs. rewrite interpolate_0. cbn [nth].
  inversion Hs as [|? ? _ Ha]; subst.
  destruct Hv as [<-|Hv]; [apply Qle_refl|].
  rewrite Forall_forall in Ha. now apply Ha.
Qed.

Lemma quantile_1_ge (vals : list float) (q3 v : Q) :
  Pd.quantile vals 1 = Some q3 -> In (Some v) vals -> v <= q3.
Proof.
  intros Hq Hv. destruct (quantile_sorted _ _ _ Hq) as (a0 & t & Es & ->).
  apply in_dropna in Hv.
  apply (Permutation_in _ (Permutation_sym (sort_Q_perm _))) in Hv.
  pose proof (sort_Q_sorted (Pd.dropna vals)) as Hs.
  rewrite Es in Hv, Hs. rewrite interpolate_1 by discriminate.
  destruct (In_nth _ v a0 Hv) as (i & Hi & <-).
  apply sorted_nth_le; [exact Hs | lia].
Qed.

(** ** Binning *)

Lemma Qeq_bool_lt (a b : Q) :
  a < b -> Qeq_bool a b = false /\ Qeq_bool b a = false.
Proof.
  intros H. split.
  - destruct (Qeq_bool a b) eqn:E; [|reflexivity].
    apply Qeq_bool_iff in E. rewrite E in H. now apply Qlt_irrefl in H.
  - destruct (Qeq_bool b a) eqn:E; [|reflexivity].
    apply Qeq_bool_iff in E. rewrite E in H. now apply Qlt_irrefl in H.
Qed.

Lemma Qle_bool_lt (a b : Q) : a < b -> Qle_bool a b = true.
Proof. intros H. now apply Qle_bool_iff, Qlt_le_weak. Qed.

Lemma four_increasing (bs : list Q) :
  List.length bs = 4%nat -> StronglySorted Qlt bs ->
  exists b0 b1 b2 b3,
    bs = [b0; b1; b2; b3] /\ b0 < b1 /\ b1 < b2 /\ b2 < b3 /\
    b0 < b2 /\ b0 < b3 /\ b1 < b3.
Proof.
  intros Hlen Hs.
  destruct bs as [|b0 [|b1 [|b2 [|b3 [|? ?]]]]]; try discriminate.
  exists b0, b1, b2, b3.
  inversion Hs as [|? ? Hs1 H0]; subst.
  inversion Hs1 as [|? ? Hs2 H1]; subst.
  inversion Hs2 as [|? ? _ H2]; subst.
  inversion H0 as [|? ? H01 H0']; subst.
  inversion H0' as [|? ? H02 H0'']; subst.
  inversion H0'' as [|? ? H03 _]; subst.
  inversion H1 as [|? ? H12 H1']; subst.
  inversion H1' as [|? ? H13 _]; subst.
  inversion H2 as [|? ? H23 _]; subst.
  repeat split; assumption.
Qed.

(** With four strictly increasing edges [pd.cut] keeps the edges and
    labels every value. *)
Lemma cut_four_increasing (x bins : list float) (bs : list Q) :
  Pd.all_some bins = Some bs -> List.length bs = 4%nat ->
  StronglySorted Qlt bs ->
  Pd.cut x bins labels = Ok (map (Pd.bin_label bs labels) x).
Proof.
  intros Hb Hlen Hs.
  destruct (four_increasing bs Hlen Hs)
    as (b0 & b1 & b2 & b3 & -> & H01 & H12 & H23 & H02 & H03 & H13).
  unfold Pd.cut. rewrite Hb.
  cbn [Pd.nondecreasing].
  rewrite (Qle_bool_lt _ _ H01), (Qle_bool_lt _ _ H12), (Qle_bool_lt _ _ H23).
  cbn [andb negb].
  unfold Pd.unique_Q. cbn [Pd.unique_Q_from existsb].
  rewrite (proj2 (Qeq_bool_lt _ _ H01)). cbn [orb existsb].
  rewrite (proj2 (Qeq_bool_lt _ _ H12)), (proj2 (Qeq_bool_lt _ _ H02)).
  cbn [orb existsb].
  rewrite (proj2 (Qeq_bool_lt _ _ H23)), (proj2 (Qeq_bool_lt _ _ H13)),
    (proj2 (Qeq_bool_lt _ _ H03)).
  reflexivity.
Qed.

(** A value between the lowest and the highest edge gets one of the three
    labels. *)
Lemma bin_label_in_range (b0 b1 b2 b3 v : Q) :
  b0 <= v -> v <= b3 ->
  exists label,
    Pd.bin_label [b0; b1; b2; b3] labels (Some v) = Some label /\
    In label labels.
Proof.
  intros Hlo Hhi. unfold Pd.bin_label, Pd.searchsorted_left.
  cbn [filter].
  assert (E3 : Qle_bool v b3 = true) by now apply Qle_bool_iff.
  rewrite E3. cbn [negb].
  destruct (Qeq_bool v b0) eqn:E0.
  - exists "Low". split; [reflexivity | now left].
  - assert (E0' : Qle_bool v b0 = false).
    { destruct (Qle_bool v b0) eqn:E; [|reflexivity].
      apply Qle_bool_iff in E.
      assert (Heq : v == b0) by now apply Qle_antisym.
      apply Qeq_bool_iff in Heq. congruence. }
    rewrite E0'. cbn [negb].
    destruct (Qle_bool v b1), (Qle_bool v b2); cbn;
      eexists; (split; [reflexivity|]); cbn; tauto.
Qed.

Lemma partition_by_label {A : Type} (key : A -> option string) (l : list A) :
  (forall a, In a l -> exists c, key a = Some c /\ In c labels) ->
  Permutation
    (List.concat (map (fun c => filter (fun a => Pd.eq_str (key a) c) l) labels))
    l.
Proof.
  induction l as [|a l IH]; intros H; [reflexivity|].
  assert (IH' := IH (fun b Hb => H b (or_intror Hb))).
  cbn [labels map List.concat] in *. rewrite app_nil_r in *.
  destruct (H a (or_introl eq_refl)) as (c & Hc & Hin).
  cbn [filter]. rewrite Hc. cbn [Pd.eq_str].
  destruct Hin as [<-|[<-|[<-|[]]]]; cbn [String.eqb Ascii.eqb Bool.eqb].
  - cbn [app]. now constructor.
  - cbn [app]. symmetry. apply Permutation_cons_app. now symmetry.
  - rewrite app_assoc in *. symmetry. apply Permutation_cons_app.
    now symmetry.
Qed.

Lemma count_true_bounds (l : list bool) :
  (0 <= Pd.count_true l <= Z.of_nat (List.length l))%Z.
Proof.
  induction l as [|b l IH]; cbn [Pd.count_true fold_right List.length]; [lia|].
  change (fold_right (fun b acc => (Z.b2z b + acc)%Z) 0%Z l)
    with (Pd.count_true l).
  destruct b; cbn [Z.b2z]; lia.
Qed.

(** A mean of booleans is undefined on the empty series and a proportion
    otherwise. *)
Lemma mean_bool_range (l : list bool) :
  match Pd.mean_bool l with
  | Some p => l <> [] /\ 0 <= p /\ p <= 1
  | None => l = []
  end.
Proof.
  destruct l as [|b l]; [reflexivity|].
  unfold Pd.mean_bool. split; [discriminate|].
  pose proof (count_true_bounds (b :: l)) as [H0 H1].
  set (c := Pd.count_true (b :: l)) in *.
  set (n := Z.of_nat (List.length (b :: l))) in *.
  assert (Hn : 0 < inject_Z n).
  { unfold n. cbn [List.length]. rewrite <- (Zlt_Qlt 0). lia. }
  split.
  - apply Qle_shift_div_l; [exact Hn|].
    rewrite Qmult_0_l. now rewrite <- (Zle_Qle 0).
  - apply Qle_shift_div_r; [exact Hn|].
    rewrite Qmult_1_l. now rewrite <- Zle_Qle.
Qed.

(** ** Lifestyle groups *)

Lemma tertile_cuts_some (filtered : DataFrame) (life_var : string)
  (bs : list Q) :
  Pd.all_some (tertile_cuts filtered life_var) = Some bs ->
  exists b0 b1 b2 b3,
    bs = [b0; b1; b2; b3] /\
    Pd.quantile (Pd.col_num filtered life_var) 0 = Some b0 /\
    Pd.quantile (Pd.col_num filtered life_var) 1 = Some b3.
Proof.
  unfold tertile_cuts. cbn [map Pd.all_some].
  destruct (Pd.quantile _ 0) as [b0|]; [|discriminate].
  destruct (Pd.quantile _ (1 # 3)) as [b1|]; [|discriminate].
  destruct (Pd.quantile _ (2 # 3)) as [b2|]; [|discriminate].
  destruct (Pd.quantile _ 1) as [b3|]; [|discriminate].
  cbn [option_map]. intros [= <-]. now exists b0, b1, b2, b3.
Qed.

Lemma any_comorbidity_rate_range (d : list row) :
  match any_comorbidity_rate d with
  | Some p => d <> [] /\ 0 <= p /\ p <= 1
  | None => d = []
  end.
Proof.
  unfold any_comorbidity_rate.
  pose proof (mean_bool_range
                (map (fun r => Pd.eq_str (obj r "Any_Comorbidity") "Yes") d))
    as H.
  destruct (Pd.mean_bool _) as [p|].
  - destruct H as [Hne Hp]. split; [|exact Hp].
    intros ->. now apply Hne.
  - now destruct d.
Qed.

Lemma Forall2_map_self {A : Type} (R : A -> A -> Prop) (f : A -> A)
  (l : list A) :
  (forall a, R a (f a)) -> Forall2 R l (map f l).
Proof. intros H. induction l; cbn [map]; constructor; auto. Qed.

(** C8, as the code has it.  When the four cut points are strictly
    increasing and the lifestyle column has no missing value, the three
    groups Low, Medium, High are all listed, every record of the table is in
    exactly one of them, a group with members has a prevalence between 0 and
    1, and a group without members is listed with an undefined prevalence. *)
Theorem lifestyle_groups_partition (filtered : DataFrame)
  (life_var : string) :
  strictly_increasing (tertile_cuts filtered life_var) ->
  (forall r, In r (rows filtered) -> num r life_var <> None) ->
  exists fl groups,
    filtered_life filtered life_var = Ok fl /\
    Forall2 same_but_group (rows filtered) (rows fl) /\
    lifestyle_groups filtered life_var = Ok groups /\
    map fst groups = ["Low"; "Medium"; "High"] /\
    Permutation (List.concat (map snd groups)) (rows fl) /\
    group_prev filtered life_var
    = Ok (map (fun g => (fst g, any_comorbidity_rate (snd g))) groups) /\
    forall label d,
      In (label, d) groups ->
      match any_comorbidity_rate d with
      | Some p => d <> [] /\ 0 <= p /\ p <= 1
      | None => d = []
      end.
Proof.
  intros (bs & Hb & Hs) Hnn.
  destruct (tertile_cuts_some _ _ _ Hb) as (b0 & b1 & b2 & b3 & -> & Hq0 & Hq3).
  pose proof (cut_four_increasing (Pd.col_num filtered life_var) _ _ Hb
                eq_refl Hs) as Hcut.
  set (bs := [b0; b1; b2; b3]) in *.
  set (relabel := fun r =>
         set_obj_cell "Lifestyle_Group"
           (Pd.bin_label bs labels (num r life_var)) r).
  assert (Hfl : filtered_life filtered life_var
                = Ok {| columns := Pd.add_column "Lifestyle_Group"
                                     (columns filtered);
                        rows := map relabel (rows filtered) |}).
  { unfold filtered_life. cbv zeta. rewrite Hcut. cbn [bind].
    unfold Pd.set_obj, Pd.col_num. now rewrite map_map, zip_with_map_r. }
  eexists. eexists. split; [exact Hfl|].
  split.
  { cbn [rows]. apply Forall2_map_self. intros r. split; [reflexivity|].
    intros c Hc. unfold relabel; cbn [obj set_obj_cell].
    destruct (String.eqb_spec c "Lifestyle_Group"); [contradiction | reflexivity]. }
  split; [unfold lifestyle_groups; rewrite Hfl; reflexivity|].
  split; [reflexivity|].
  split.
  { unfold Pd.groupby. rewrite map_map. cbn [snd rows].
    apply (partition_by_label (fun r => obj r "Lifestyle_Group")).
    intros r' Hr'. apply in_map_iff in Hr' as (r & <- & Hr).
    unfold relabel; cbn [obj set_obj_cell String.eqb Ascii.eqb Bool.eqb].
    destruct (num r life_var) as [v|] eqn:Ev; [|now apply Hnn in Hr].
    assert (Hin : In (Some v) (Pd.col_num filtered life_var)).
    { unfold Pd.col_num. rewrite <- Ev.
      exact (in_map (fun r => num r life_var) _ _ Hr). }
    apply bin_label_in_range.
    - exact (quantile_0_le _ _ _ Hq0 Hin).
    - exact (quantile_1_ge _ _ _ Hq3 Hin). }
  split.
  { unfold group_prev, lifestyle_groups. rewrite Hfl. reflexivity. }
  intros label d _. apply any_comorbidity_rate_range.
Qed.

Lemma lifestyle_groups_partition_witness :
  exists fl groups,
    filtered_life sleep_1_to_5 "Sleep_Hours" = Ok fl /\
    Forall2 same_but_group (rows sleep_1_to_5) (rows fl) /\
    lifestyle_groups sleep_1_to_5 "Sleep_Hours" = Ok groups /\
    map fst groups = ["Low"; "Medium"; "High"] /\
    Permutation (List.concat (map snd groups)) (rows fl) /\
    group_prev sleep_1_to_5 "Sleep_Hours"
    = Ok (map (fun g => (fst g, any_comorbidity_rate (snd g))) groups) /\
    forall label d,
      In (label, d) groups ->
      match any_comorbidity_rate d with
      | Some p => d <> [] /\ 0 <= p /\ p <= 1
      | None => d = []
      end.
Proof.
  apply (lifestyle_groups_partition sleep_1_to_5 "Sleep_Hours").
  - exists [1; 7 # 3; 11 # 3; 5]. split; [reflexivity|].
    repeat constructor; reflexivity.
  - intros r Hr.
    destruct Hr as [<-|[<-|[<-|[<-|[<-|[]]]]]]; discriminate.
Defined.

(** C8, as stated, fails: with Sleep_Hours 0 and 3 the cut points are 0, 1,
    2, 3, no record falls between 1 and 2, and the Medium group is listed
    all the same, with an undefined prevalence. *)
Lemma empty_group_is_listed :
  rows sleep_0_3 <> [] /\
  tertile_cuts sleep_0_3 "Sleep_Hours"
  = [Some 0; Some (3 # 3); Some (6 # 3); Some 3] /\
  (exists groups,
      lifestyle_groups sleep_0_3 "Sleep_Hours" = Ok groups /\
      map (fun g => (fst g, List.length (snd g))) groups
      = [("Low", 1%nat); ("Medium", 0%nat); ("High", 1%nat)]) /\
  group_prev sleep_0_3 "Sleep_Hours"
  = Ok [("Low", Some 1); ("Medium", None); ("High", Some 0)].
Proof.
  split; [discriminate|]. split; [reflexivity|].
  split; [eexists; split; reflexivity | reflexivity].
Qed.

(** C5: what the code does on nine records with the same Sleep_Hours.  All
    four cut points are 7, [duplicates="drop"] leaves a single edge, and the
    three fixed labels no longer fit: [pd.cut] raises. *)
Theorem nine_identical_rows_raise :
  Forall (fun c => same_value c (Some 7))
    (tertile_cuts nine_identical "Sleep_Hours") /\
  filtered_life nine_identical "Sleep_Hours"
  = Raise (ValueError "Bin labels must be one fewer than the number of bin edges") /\
  group_prev nine_identical "Sleep_Hours"
  = Raise (ValueError "Bin labels must be one fewer than the number of bin edges").
Proof.
  split; [repeat constructor; vm_compute; reflexivity|].
  split; vm_compute; reflexivity.
Qed.

(** ** Correlation *)

Lemma in_stack_corr (df : DataFrame) (cols : list string) (a b : string)
  (v : R) :
  In (a, b, v) (Pd.stack (Pd.corr df cols)) <->
  In a cols /\ In b cols /\
  Pd.pearson (Pd.col_num df a) (Pd.col_num df b) = Some v.
Proof.
  unfold Pd.stack, Pd.corr. rewrite in_flat_map. split.
  - intros (ra & Hra & Hin). apply in_map_iff in Hra as (a' & <- & Ha').
    cbn [fst snd] in Hin. apply in_flat_map in Hin as (bv & Hbv & Hin).
    apply in_map_iff in Hbv as (b' & <- & Hb'). cbn [fst snd] in Hin.
    destruct (Pd.pearson _ _) as [w|] eqn:E; [|destruct Hin].
    destruct Hin as [[= <- <- <-]|[]]. auto.
  - intros (Ha & Hb & E).
    exists (a, map (fun b0 => (b0, Pd.pearson (Pd.col_num df a)
                                     (Pd.col_num df b0))) cols).
    split; [apply (in_map (fun a0 => (a0, _)) _ _ Ha)|].
    cbn [fst snd]. apply in_flat_map.
    exists (b, Pd.pearson (Pd.col_num df a) (Pd.col_num df b)).
    split; [apply (in_map (fun b0 => (b0, _)) _ _ Hb)|].
    cbn [fst snd]. rewrite E. now left.
Qed.

Lemma complete_pairs_swap (x y : list float) :
  Pd.complete_pairs y x = map (fun p => (snd p, fst p)) (Pd.complete_pairs x y).
Proof.
  revert y; induction x as [|[a|] x IH]; intros [|[b|] y];
    cbn [Pd.complete_pairs map fst snd]; try reflexivity;
    now rewrite IH.
Qed.

Lemma qsum_zip_swap (f g : Q -> Q -> Q) (u v : list Q) :
  (forall a b, f b a == g a b) ->
  Pd.qsum (zip_with f v u) == Pd.qsum (zip_with g u v).
Proof.
  intros H. revert v; induction u as [|a u IH]; intros [|b v];
    cbn [zip_with Pd.qsum fold_right]; try reflexivity.
  change (fold_right Qplus 0 (zip_with f v u)) with (Pd.qsum (zip_with f v u)).
  change (fold_right Qplus 0 (zip_with g u v)) with (Pd.qsum (zip_with g u v)).
  now rewrite IH, H.
Qed.

Lemma sdev_sym (u v : list Q) : Pd.sdev v u == Pd.sdev u v.
Proof.
  unfold Pd.sdev. apply qsum_zip_swap. intros a b. ring.
Qed.

(** Pearson's coefficient does not depend on the order of the columns. *)
Lemma pearson_sym (x y : list float) : Pd.pearson y x = Pd.pearson x y.
Proof.
  unfold Pd.pearson. rewrite (complete_pairs_swap x y).
  rewrite length_map, !map_map. cbn [fst snd].
  set (u := map fst (Pd.complete_pairs x y)).
  set (v := map snd (Pd.complete_pairs x y)).
  change (map (fun p : Q * Q => snd p) (Pd.complete_pairs x y)) with v.
  change (map (fun p : Q * Q => fst p) (Pd.complete_pairs x y)) with u.
  destruct (List.length (Pd.complete_pairs x y) <? 1)%nat; [reflexivity|].
  assert (E : Pd.sdev v v * Pd.sdev u u == Pd.sdev u u * Pd.sdev v v) by ring.
  assert (Eb : Qeq_bool (Pd.sdev v v * Pd.sdev u u) 0
               = Qeq_bool (Pd.sdev u u * Pd.sdev v v) 0) by now rewrite E.
  rewrite Eb.
  destruct (Qeq_bool (Pd.sdev u u * Pd.sdev v v) 0); [reflexivity|].
  now rewrite (Qeq_eqR _ _ E), (Qeq_eqR _ _ (sdev_sym u v)).
Qed.

Lemma complete_pairs_self (x : list float) :
  map fst (Pd.complete_pairs x x) = Pd.dropna x /\
  map snd (Pd.complete_pairs x x) = Pd.dropna x.
Proof.
  induction x as [|[a|] x [IH1 IH2]]; cbn [Pd.complete_pairs Pd.dropna map fst snd];
    [auto | now rewrite IH1, IH2 | auto].
Qed.

Lemma qsum_nonneg (l : list Q) : Forall (fun q => 0 <= q) l -> 0 <= Pd.qsum l.
Proof.
  induction 1 as [|q l Hq _ IH]; cbn [Pd.qsum fold_right]; [apply Qle_refl|].
  change (fold_right Qplus 0 l) with (Pd.qsum l).
  rewrite <- (Qplus_0_l 0). now apply Qplus_le_compat.
Qed.

Lemma zip_with_diag {A B : Type} (f : A -> A -> B) (l : list A) :
  zip_with f l l = map (fun a => f a a) l.
Proof. induction l as [|a l IH]; cbn; [reflexivity | now rewrite IH]. Qed.

Lemma sdev_self_nonneg (u : list Q) : 0 <= Pd.sdev u u.
Proof.
  unfold Pd.sdev. rewrite zip_with_diag. apply qsum_nonneg.
  apply Forall_forall. intros q Hq. apply in_map_iff in Hq as (a & <- & _).
  set (d := a - Pd.qmean u).
  destruct (Qlt_le_dec d 0) as [Hd|Hd].
  - setoid_replace (d * d) with ((- d) * (- d)) by ring.
    apply Qmult_le_0_compat; apply Qlt_le_weak;
      rewrite <- (Qplus_0_l (- d)); rewrite <- Qlt_minus_iff; exact Hd.
  - now apply Qmult_le_0_compat.
Qed.

(** A column with non-zero variance has correlation 1 with itself. *)
Lemma pearson_self (x : list float) :
  nonzero_variance x -> Pd.pearson x x = Some 1%R.
Proof.
  unfold nonzero_variance, ssq, Pd.pearson. intros Hv.
  destruct (complete_pairs_self x) as [E1 E2]. rewrite E1, E2.
  set (u := Pd.dropna x) in *. set (s := Pd.sdev u u) in *.
  assert (Hlen : (List.length (Pd.complete_pairs x x) <? 1)%nat = false).
  { rewrite <- (length_map fst), E1. fold u.
    destruct u as [|a u']; [|reflexivity].
    exfalso. apply Hv. reflexivity. }
  rewrite Hlen.
  assert (Hs : 0 < s).
  { destruct (Qle_lt_or_eq _ _ (sdev_self_nonneg u)) as [H|H]; [exact H|].
    exfalso. apply Hv. now symmetry. }
  assert (Hss : Qeq_bool (s * s) 0 = false).
  { destruct (Qeq_bool (s * s) 0) eqn:E; [|reflexivity].
    apply Qeq_bool_iff in E. apply Qmult_integral in E.
    exfalso. apply Hv. now destruct E. }
  rewrite Hss. f_equal.
  assert (Hr : (0 < Q2R s)%R) by (rewrite <- RMicromega.Q2R_0; now apply Qlt_Rlt).
  rewrite Q2R_mult, sqrt_square by now apply Rlt_le.
  apply Rdiv_diag. now apply Rgt_not_eq.
Qed.



